(** * generate_page.py: fetch, classify, render

    A shallow embedding of [src/generate_page.py].  The script asks a quote
    API for one index, turns the daily percent change into a mood category,
    and renders a template with the result.

    What is modelled and how:
    - Python values coming out of [response.json()] are the inductive
      [pyval]; a Python [dict] is a [gmap string pyval].
    - A Python [float] is a [spec_float] of the Standard Library (sign,
      mantissa, binary exponent), read at its exact rational value; Python
      compares an [int] with a [float] exactly, so comparisons are done in
      [Q] extended with the infinities and NaN.  Mantissa and exponent are
      not bounded, so the model has every double and more.
    - [format(x, '.2f')] is modelled for every Python value: it rounds the
      exact value of the double half-to-even at two decimals and raises the
      Python exception for values that have no such format.
    - The local variables of [get_market_data] are a record threaded through
      a small state-and-exception monad, so that an exception raised in the
      middle of the [try] block leaves the assignments made before it.
    - The calls into [requests] and the clock are inputs of the model: what
      they return or raise is given by the caller.  The files are a map from
      paths to contents: the template is read from it and the page written
      to it; what [jinja2] makes of a template text and which file
      operations fail are given by the caller.  Output on stdout is not
      modelled. *)

From Stdlib Require Import ZArith NArith QArith Qabs Lia Lqa String Ascii List DecimalString.
From Stdlib Require Import Floats.SpecFloat.
From stdpp Require Import gmap strings.

Local Open Scope Z_scope.

(** ** Python values *)

#[local] Set Warnings "-register-all".

(** What [json.loads] can hand back: [None], [bool], [int], [float] (with
    [NaN] and the infinities, which Python's parser accepts), [str], [list]
    and [dict] with string keys. *)
Inductive pyval : Type :=
| VNone
| VBool (b : bool)
| VInt (z : Z)
| VFloat (f : spec_float)
| VStr (s : string)
| VList (l : list pyval)
| VDict (d : gmap string pyval).

(** ** Exceptions

    The classes the handlers of [get_market_data] tell apart, and the
    built-in ones the body itself can raise.  Every one of them derives from
    [Exception].  Each carries the text of [str(e)]; an [HTTPError] also
    carries [str(http_err.response.json())], or [None] when that call
    raises. *)
Inductive exn : Type :=
| Timeout (msg : string)
| HTTPError (msg : string) (details : option string)
| RequestException (msg : string)
| AttributeError (msg : string)
| ValueError (msg : string)
| TypeError (msg : string)
| OverflowError (msg : string)
| OtherException (msg : string).

Definition exn_str (e : exn) : string :=
  match e with
  | Timeout m | HTTPError m _ | RequestException m | AttributeError m
  | ValueError m | TypeError m | OverflowError m | OtherException m => m
  end.

Inductive result (A : Type) : Type :=
| Ok (a : A)
| Raise (e : exn).
Arguments Ok {A} a.
Arguments Raise {A} e.

(** ** Numbers *)

(** The exact value of a Python number. *)
Inductive xnum : Type :=
| XNaN
| XInf (neg : bool)
| XFin (q : Q).

Definition float_value (s : bool) (m : positive) (e : Z) : Q :=
  let mag : Q :=
    match e with
    | Z0 => inject_Z (Zpos m)
    | Zpos k => inject_Z (Zpos (m * 2 ^ k))
    | Zneg k => Zpos m # (2 ^ k)
    end in
  if s then Qopp mag else mag.

Definition float_xnum (f : spec_float) : xnum :=
  match f with
  | S754_zero _ => XFin 0
  | S754_infinity s => XInf s
  | S754_nan => XNaN
  | S754_finite s m e => XFin (float_value s m e)
  end.

(** [bool] is a subclass of [int]: [True] is 1 and [False] is 0. *)
Definition num_of (v : pyval) : option xnum :=
  match v with
  | VBool b => Some (XFin (inject_Z (if b then 1 else 0)))
  | VInt z => Some (XFin (inject_Z z))
  | VFloat f => Some (float_xnum f)
  | _ => None
  end.

(** Python's [<=], [<] and [>] on numbers: exact, and false as soon as one
    side is NaN. *)
Definition xcompare (x y : xnum) : option comparison :=
  match x, y with
  | XNaN, _ | _, XNaN => None
  | XInf a, XInf b => Some (if a then (if b then Eq else Lt) else (if b then Gt else Eq))
  | XInf a, XFin _ => Some (if a then Lt else Gt)
  | XFin _, XInf b => Some (if b then Gt else Lt)
  | XFin p, XFin q => Some (Qcompare p q)
  end.

Definition xle (x y : xnum) : bool :=
  match xcompare x y with Some Lt | Some Eq => true | _ => false end.
Definition xlt (x y : xnum) : bool :=
  match xcompare x y with Some Lt => true | _ => false end.
Definition xgt (x y : xnum) : bool :=
  match xcompare x y with Some Gt => true | _ => false end.

(** The literals the source compares against. *)
Inductive pylit : Type :=
| LInt (z : Z)
| LFloat (f : spec_float).

Definition lit_xnum (k : pylit) : xnum :=
  match k with
  | LInt z => XFin (inject_Z z)
  | LFloat f => float_xnum f
  end.

Definition type_name (v : pyval) : string :=
  match v with
  | VNone => "NoneType"
  | VBool _ => "bool"
  | VInt _ => "int"
  | VFloat _ => "float"
  | VStr _ => "str"
  | VList _ => "list"
  | VDict _ => "dict"
  end.

(** [v op k] for a numeric literal [k]: a [TypeError] unless [v] is a
    number. *)
Definition py_cmp (op : xnum -> xnum -> bool) (sym : string) (v : pyval) (k : pylit)
  : result bool :=
  match num_of v with
  | Some x => Ok (op x (lit_xnum k))
  | None =>
      Raise (TypeError ("'" +:+ sym +:+ "' not supported between instances of '"
                        +:+ type_name v +:+ "' and '"
                        +:+ match k with LInt _ => "int" | LFloat _ => "float" end +:+ "'"))
  end.

Definition py_le := py_cmp xle "<=".
Definition py_lt := py_cmp xlt "<".
Definition py_gt := py_cmp xgt ">".

(** The double nearest to the decimal literal [0.2] of line 79,
    0x1.999999999999ap-3, a little above one fifth. *)
Definition double_0_2 : spec_float := S754_finite false 7205759403792794 (-55).

(** ** [format(x, '.2f')] *)

(** The integer nearest to [num / den], ties to the even one ([den] > 0). *)
Definition round_half_even (num den : N) : N :=
  let q := (num / den)%N in
  let r := (num mod den)%N in
  match (2 * r ?= den)%N with
  | Lt => q
  | Gt => (q + 1)%N
  | Eq => if N.even q then q else (q + 1)%N
  end.

(** [|x| * 100] rounded to an integer, for the finite double [m * 2^e]. *)
Definition hundredths (m : positive) (e : Z) : N :=
  match e with
  | Z0 => (Npos m * 100)%N
  | Zpos k => (Npos (m * 2 ^ k) * 100)%N
  | Zneg k => round_half_even (Npos m * 100) (Npos (2 ^ k))
  end.

Definition digit (n : N) : string :=
  NilEmpty.string_of_uint (N.to_uint (n mod 10)).

Definition fixed2 (neg : bool) (h : N) : string :=
  (if neg then "-" else "") +:+ NilEmpty.string_of_uint (N.to_uint (h / 100))
  +:+ "." +:+ digit (h / 10) +:+ digit h.

Definition format_float_2f (f : spec_float) : string :=
  match f with
  | S754_nan => "nan"
  | S754_infinity s => if s then "-inf" else "inf"
  | S754_zero s => fixed2 s 0
  | S754_finite s m e => fixed2 s (hundredths m e)
  end.

(** [float(z)] for an [int]: exact up to 53 bits, otherwise rounded to 53
    bits half-to-even; [OverflowError] from 2^1024 on.  The mantissa is left
    as the rounding gives it (it may be 2^53), which does not change the
    value. *)
Definition float_of_int (z : Z) : result spec_float :=
  match z with
  | Z0 => Ok (S754_zero false)
  | Zpos p | Zneg p =>
      let neg := match z with Zneg _ => true | _ => false end in
      let bits := Z.log2 (Zpos p) + 1 in
      if bits <=? 53 then Ok (S754_finite neg p 0)
      else
        let sh := bits - 53 in
        let m := round_half_even (Npos p) (2 ^ Z.to_N sh) in
        if (2 ^ 1024 <=? m * 2 ^ Z.to_N sh)%N
        then Raise (OverflowError "int too large to convert to float")
        else Ok (S754_finite neg (N.succ_pos (N.pred m)) sh)
  end.

(** The format specification ['.2f'] applied to any value. *)
Definition format_2f (v : pyval) : result string :=
  match v with
  | VFloat f => Ok (format_float_2f f)
  | VInt z =>
      match float_of_int z with
      | Ok f => Ok (format_float_2f f)
      | Raise e => Raise e
      end
  | VBool b => Ok (format_float_2f (if b then S754_finite false 1 0 else S754_zero false))
  | VStr _ => Raise (ValueError "Unknown format code 'f' for object of type 'str'")
  | VNone | VList _ | VDict _ =>
      Raise (TypeError ("unsupported format string passed to "
                        +:+ type_name v +:+ ".__format__"))
  end.

(** ** Configuration (lines 15-20) *)

Definition FINANCIAL_API_BASE_URL : string := "https://finnhub.io/api/v1".
Definition INDEX_SYMBOL : string := "SPY".
Definition HTML_TEMPLATE_FILE : string := "template.html".
Definition OUTPUT_HTML_FILE : string := "index.html".

(** ** [get_visual_humor_embed] (lines 143-179) *)

(** The double quote character, which the embed codes are full of. *)
Definition dq : string := String (ascii_of_nat 34) EmptyString.

Definition embed_yes : string :=
  "
            <div style="
    +:+ dq +:+ "width:100%;height:0;padding-bottom:56%;position:relative;"
    +:+ dq +:+ "><iframe src="
    +:+ dq +:+ "https://giphy.com/embed/1rNWZu4QQqCUaq434T"
    +:+ dq +:+ " width="
    +:+ dq +:+ "100%"
    +:+ dq +:+ " height="
    +:+ dq +:+ "100%"
    +:+ dq +:+ " style="
    +:+ dq +:+ "position:absolute"
    +:+ dq +:+ " frameBorder="
    +:+ dq +:+ "0"
    +:+ dq +:+ " class="
    +:+ dq +:+ "giphy-embed"
    +:+ dq +:+ " allowFullScreen></iframe></div><p><a href="
    +:+ dq +:+ "https://giphy.com/gifs/this-is-fine-dumpster-fire-floating-1rNWZu4QQqCUaq434T"
    +:+ dq +:+ ">via GIPHY</a></p>
            ".

Definition embed_wobbly : string :=
  "
            <div style="
    +:+ dq +:+ "width:100%;height:0;padding-bottom:100%;position:relative;"
    +:+ dq +:+ "><iframe src="
    +:+ dq +:+ "https://giphy.com/embed/NTur7XlVDUdqM"
    +:+ dq +:+ " width="
    +:+ dq +:+ "100%"
    +:+ dq +:+ " height="
    +:+ dq +:+ "100%"
    +:+ dq +:+ " style="
    +:+ dq +:+ "position:absolute"
    +:+ dq +:+ " frameBorder="
    +:+ dq +:+ "0"
    +:+ dq +:+ " class="
    +:+ dq +:+ "giphy-embed"
    +:+ dq +:+ " allowFullScreen></iframe></div><p><a href="
    +:+ dq +:+ "https://giphy.com/gifs/this-is-fine-dog-ntur7xldudqm"
    +:+ dq +:+ ">via GIPHY</a></p>
            ".

Definition embed_bleeding : string :=
  "
            <div style="
    +:+ dq +:+ "width:100%;height:0;padding-bottom:50%;position:relative;"
    +:+ dq +:+ "><iframe src="
    +:+ dq +:+ "https://giphy.com/embed/3IMr40UId6417vSWZ6"
    +:+ dq +:+ " width="
    +:+ dq +:+ "100%"
    +:+ dq +:+ " height="
    +:+ dq +:+ "100%"
    +:+ dq +:+ " style="
    +:+ dq +:+ "position:absolute"
    +:+ dq +:+ " frameBorder="
    +:+ dq +:+ "0"
    +:+ dq +:+ " class="
    +:+ dq +:+ "giphy-embed"
    +:+ dq +:+ " allowFullScreen></iframe></div><p><a href="
    +:+ dq +:+ "https://giphy.com/gifs/a24-lamb-3IMr40UId6417vSWZ6"
    +:+ dq +:+ ">via GIPHY</a></p>
            ".

Definition embed_no : string :=
  "
            <div style="
    +:+ dq +:+ "width:100%;height:0;padding-bottom:100%;position:relative;"
    +:+ dq +:+ "><iframe src="
    +:+ dq +:+ "https://giphy.com/embed/d8SRR4aDUINuU"
    +:+ dq +:+ " width="
    +:+ dq +:+ "100%"
    +:+ dq +:+ " height="
    +:+ dq +:+ "100%"
    +:+ dq +:+ " style="
    +:+ dq +:+ "position:absolute"
    +:+ dq +:+ " frameBorder="
    +:+ dq +:+ "0"
    +:+ dq +:+ " class="
    +:+ dq +:+ "giphy-embed"
    +:+ dq +:+ " allowFullScreen></iframe></div><p><a href="
    +:+ dq +:+ "https://giphy.com/gifs/nooooo-d8SRR4aDUINuU"
    +:+ dq +:+ ">via GIPHY</a></p>
            ".

Definition embed_climbing : string :=
  "
            <div style="
    +:+ dq +:+ "width:100%;height:0;padding-bottom:75%;position:relative;"
    +:+ dq +:+ "><iframe src="
    +:+ dq +:+ "https://giphy.com/embed/NEvPzZ8bd1V4Y"
    +:+ dq +:+ " width="
    +:+ dq +:+ "100%"
    +:+ dq +:+ " height="
    +:+ dq +:+ "100%"
    +:+ dq +:+ " style="
    +:+ dq +:+ "position:absolute"
    +:+ dq +:+ " frameBorder="
    +:+ dq +:+ "0"
    +:+ dq +:+ " class="
    +:+ dq +:+ "giphy-embed"
    +:+ dq +:+ " allowFullScreen></iframe></div><p><a href="
    +:+ dq +:+ "https://giphy.com/gifs/reactionseditor-yes-nice-nevpzz8bd1v4y"
    +:+ dq +:+ ">via GIPHY</a></p>
            ".

Definition embed_sideways : string :=
  "
            <div style="
    +:+ dq +:+ "width:100%;height:0;padding-bottom:56%;position:relative;"
    +:+ dq +:+ "><iframe src="
    +:+ dq +:+ "https://giphy.com/embed/l1J3VHwlmsc9vsmju"
    +:+ dq +:+ " width="
    +:+ dq +:+ "100%"
    +:+ dq +:+ " height="
    +:+ dq +:+ "100%"
    +:+ dq +:+ " style="
    +:+ dq +:+ "position:absolute"
    +:+ dq +:+ " frameBorder="
    +:+ dq +:+ "0"
    +:+ dq +:+ " class="
    +:+ dq +:+ "giphy-embed"
    +:+ dq +:+ " allowFullScreen></iframe></div><p><a href="
    +:+ dq +:+ "https://giphy.com/gifs/masterchef-fox-season-8-l1J3VHwlmsc9vsmju"
    +:+ dq +:+ ">via GIPHY</a></p>
            ".

Definition embed_error : string :=
  "
            <div style="
    +:+ dq +:+ "width:100%;height:0;padding-bottom:56%;position:relative;"
    +:+ dq +:+ "><iframe src="
    +:+ dq +:+ "https://giphy.com/embed/JliGmPEIgzGLe"
    +:+ dq +:+ " width="
    +:+ dq +:+ "100%"
    +:+ dq +:+ " height="
    +:+ dq +:+ "100%"
    +:+ dq +:+ " style="
    +:+ dq +:+ "position:absolute"
    +:+ dq +:+ " frameBorder="
    +:+ dq +:+ "0"
    +:+ dq +:+ " class="
    +:+ dq +:+ "giphy-embed"
    +:+ dq +:+ " allowFullScreen></iframe></div><p><a href="
    +:+ dq +:+ "https://giphy.com/gifs/computer-computers-problems-JliGmPEIgzGLe"
    +:+ dq +:+ ">via GIPHY</a></p>
            ".

Definition default_embed : string :=
  "
        <div style="
    +:+ dq +:+ "width:100%;height:0;padding-bottom:100%;position:relative;"
    +:+ dq +:+ "><iframe src="
    +:+ dq +:+ "https://giphy.com/embed/l0HlHFRbmaZtBRhXG"
    +:+ dq +:+ " width="
    +:+ dq +:+ "100%"
    +:+ dq +:+ " height="
    +:+ dq +:+ "100%"
    +:+ dq +:+ " style="
    +:+ dq +:+ "position:absolute"
    +:+ dq +:+ " frameBorder="
    +:+ dq +:+ "0"
    +:+ dq +:+ " class="
    +:+ dq +:+ "giphy-embed"
    +:+ dq +:+ " allowFullScreen></iframe></div><p><a href="
    +:+ dq +:+ "https://giphy.com/gifs/reactionseditor-shrug-l0hlhfrbmaztbrhxg"
    +:+ dq +:+ ">via GIPHY</a></p>
        ".

Definition embed_map : gmap string string :=
  list_to_map
    [("yes", embed_yes); ("wobbly", embed_wobbly); ("bleeding", embed_bleeding);
     ("no", embed_no); ("climbing", embed_climbing); ("sideways", embed_sideways);
     ("error", embed_error)].

(** [embed_map.get(status_class, default_embed)] *)
Definition get_visual_humor_embed (status_class : string) : string :=
  default default_embed (embed_map !! status_class).

(** The category set: the keys of [embed_map]. *)
Definition status_classes : list string :=
  ["yes"; "wobbly"; "bleeding"; "no"; "climbing"; "sideways"; "error"].

(** ** Local variables of [get_market_data] and the monad *)

Record locals : Type := Locals {
  overall_index_change : pyval;
  current_price : pyval;
  error_msg : option string;
  status_text : string;
  status_class : string;
  subtitle : string;
  arrow_character : string
}.

(** Lines 29-35. *)
Definition init_locals : locals :=
  {| overall_index_change := VInt 0;
     current_price := VNone;
     error_msg := None;
     status_text := "MAYBE?";
     status_class := "maybe";
     subtitle := "Checking the market pulse...";
     arrow_character := "" |}.

(** A computation reads and writes a state (the locals of a function, or
    the files on disk) and either gives a value or raises; what was written
    before a raise stays written. *)
Definition M (S A : Type) : Type := S -> result A * S.

Definition ret {S A} (a : A) : M S A := fun st => (Ok a, st).

Definition bind {S A B} (m : M S A) (k : A -> M S B) : M S B :=
  fun st =>
    match m st with
    | (Ok a, st') => k a st'
    | (Raise e, st') => (Raise e, st')
    end.

Definition lift {S A} (r : result A) : M S A := fun st => (r, st).

Definition gets {S A} (f : S -> A) : M S A := fun st => (Ok (f st), st).

Definition modify {S} (f : S -> S) : M S unit := fun st => (Ok tt, f st).

(** [try: body except Exception as e: handler e] *)
Definition try_except {S A} (body : M S A) (handler : exn -> M S A) : M S A :=
  fun st =>
    match body st with
    | (Ok a, st') => (Ok a, st')
    | (Raise e, st') => handler e st'
    end.

Declare Scope py_scope.
Delimit Scope py_scope with py.
Notation "x <- m ;; k" := (bind m (fun x => k))
  (at level 100, m at next level, right associativity) : py_scope.
Notation "m ;; k" := (bind m (fun _ => k))
  (at level 100, right associativity) : py_scope.

Definition assign_overall_index_change (v : pyval) : M locals unit :=
  modify (fun st => Locals v (current_price st) (error_msg st) (status_text st)
                           (status_class st) (subtitle st) (arrow_character st)).
Definition assign_current_price (v : pyval) : M locals unit :=
  modify (fun st => Locals (overall_index_change st) v (error_msg st) (status_text st)
                           (status_class st) (subtitle st) (arrow_character st)).
Definition assign_error_msg (s : string) : M locals unit :=
  modify (fun st => Locals (overall_index_change st) (current_price st) (Some s)
                           (status_text st) (status_class st) (subtitle st)
                           (arrow_character st)).
Definition assign_status_text (s : string) : M locals unit :=
  modify (fun st => Locals (overall_index_change st) (current_price st) (error_msg st) s
                           (status_class st) (subtitle st) (arrow_character st)).
Definition assign_status_class (s : string) : M locals unit :=
  modify (fun st => Locals (overall_index_change st) (current_price st) (error_msg st)
                           (status_text st) s (subtitle st) (arrow_character st)).
Definition assign_subtitle (s : string) : M locals unit :=
  modify (fun st => Locals (overall_index_change st) (current_price st) (error_msg st)
                           (status_text st) (status_class st) s (arrow_character st)).
Definition assign_arrow_character (s : string) : M locals unit :=
  modify (fun st => Locals (overall_index_change st) (current_price st) (error_msg st)
                           (status_text st) (status_class st) (subtitle st) s).

(** ** [get_market_data] (lines 26-140) *)

(** What lines 43-45 come to: [session.get], [raise_for_status] and
    [response.json()] either raise, or hand over the parsed body. *)
Inductive fetch_outcome : Type :=
| FetchRaises (e : exn)
| FetchJson (index_data : pyval).

(** [index_data.get(key)]: only a [dict] has the method. *)
Definition py_get (obj : pyval) (key : string) : result pyval :=
  match obj with
  | VDict d => Ok (default VNone (d !! key))
  | _ => Raise (AttributeError ("'" +:+ type_name obj +:+ "' object has no attribute 'get'"))
  end.

Definition is_None (v : pyval) : bool :=
  match v with VNone => true | _ => false end.

Local Open Scope py_scope.

(** Lines 59-88: the threshold chain on [overall_index_change]. *)
Definition determine_status : M locals unit :=
  x <- gets overall_index_change ;;
  b <- lift (py_le x (LInt (-10))) ;;
  if b : bool then
    assign_status_text "YES!" ;;
    assign_status_class "yes" ;;
    s <- lift (format_2f x) ;;
    assign_subtitle ("S&P 500 down " +:+ s +:+ "%. Deep breaths.") ;;
    assign_arrow_character "▼"
  else
  b <- lift (py_le x (LInt (-5))) ;;
  if b : bool then
    assign_status_text "BLEEDING" ;;
    assign_status_class "bleeding" ;;
    s <- lift (format_2f x) ;;
    assign_subtitle ("S&P 500 down " +:+ s +:+ "%. Minor dip.") ;;
    assign_arrow_character "▼"
  else
  b <- lift (py_lt x (LInt (-2))) ;;
  if b : bool then
    assign_status_text "WOBBLY" ;;
    assign_status_class "wobbly" ;;
    s <- lift (format_2f x) ;;
    assign_subtitle ("S&P 500 down " +:+ s +:+ "%. Looking shaky.") ;;
    assign_arrow_character "▼"
  else
  b <- lift (py_gt x (LInt 2)) ;;
  if b : bool then
    assign_status_text "NOT YET!" ;;
    assign_status_class "no" ;;
    s <- lift (format_2f x) ;;
    assign_subtitle ("S&P 500 up " +:+ s +:+ "%. Still climbing!") ;;
    assign_arrow_character "▲"
  else
  b <- lift (py_gt x (LFloat double_0_2)) ;;
  if b : bool then
    assign_status_text "CLIMBING" ;;
    assign_status_class "climbing" ;;
    s <- lift (format_2f x) ;;
    assign_subtitle ("S&P 500 up " +:+ s +:+ "%. Gentle rise.") ;;
    assign_arrow_character "▲"
  else
    assign_status_text "FLAT" ;;
    assign_status_class "sideways" ;;
    s <- lift (format_2f x) ;;
    assign_subtitle ("S&P 500 change: " +:+ s +:+ "%. Holding steady...") ;;
    assign_arrow_character "▬".

(** Line 42. *)
Definition quote_url (API_KEY : string) : string :=
  FINANCIAL_API_BASE_URL +:+ "/quote?symbol=" +:+ INDEX_SYMBOL +:+ "&token=" +:+ API_KEY.

(** Lines 40-88: the body of the [try]. *)
Definition try_body (API_KEY : string) (session_get : string -> fetch_outcome)
  : M locals unit :=
  index_data <- lift (match session_get (quote_url API_KEY) with
                      | FetchRaises e => Raise e
                      | FetchJson v => Ok v
                      end) ;;
  dp <- lift (py_get index_data "dp") ;;
  assign_overall_index_change dp ;;
  c <- lift (py_get index_data "c") ;;
  assign_current_price c ;;
  x <- gets overall_index_change ;;
  (if is_None x then
     assign_overall_index_change (VInt 0) ;;
     assign_error_msg ("Could not retrieve percent change for " +:+ INDEX_SYMBOL +:+ ".")
   else ret tt) ;;
  x <- gets overall_index_change ;;
  _ <- lift (format_2f x) ;;
  determine_status.

(** Lines 90-121: the four handlers, tried in this order. *)
Definition except_handlers (e : exn) : M locals unit :=
  match e with
  | Timeout _ =>
      assign_error_msg "API request timed out." ;;
      assign_status_text "ERROR" ;;
      assign_status_class "error" ;;
      assign_subtitle "Could not fetch market data." ;;
      assign_arrow_character "?"
  | HTTPError http_err details =>
      assign_error_msg
        match details with
        | Some err_details => "API HTTP error: " +:+ http_err +:+ " - " +:+ err_details
        | None => "API HTTP error occurred: " +:+ http_err
        end ;;
      assign_status_text "ERROR" ;;
      assign_status_class "error" ;;
      assign_subtitle "Could not fetch market data." ;;
      assign_arrow_character "?"
  | RequestException req_err =>
      assign_error_msg ("API Request error occurred: " +:+ req_err) ;;
      assign_status_text "ERROR" ;;
      assign_status_class "error" ;;
      assign_subtitle "Could not fetch market data." ;;
      assign_arrow_character "?"
  | _ =>
      assign_error_msg ("An unexpected error occurred: " +:+ exn_str e) ;;
      assign_status_text "ERROR" ;;
      assign_status_class "error" ;;
      assign_subtitle "Could not determine market status." ;;
      assign_arrow_character "?"
  end.

(** Lines 123-140: the embed lookup and the returned [dict].  The two
    formatted fields are evaluated here, after the [try] statement. *)
Definition build_report (now : string) : M locals (gmap string pyval) :=
  sc <- gets status_class ;;
  let giphy_embed_code := get_visual_humor_embed sc in
  st <- gets status_text ;;
  ar <- gets arrow_character ;;
  sub <- gets subtitle ;;
  x <- gets overall_index_change ;;
  pct <- (if is_None x then ret "N/A"
          else s <- lift (format_2f x) ;; ret (s +:+ "%")) ;;
  p <- gets current_price ;;
  price <- (if is_None p then ret "N/A" else lift (format_2f p)) ;;
  err <- gets error_msg ;;
  ret (list_to_map
         [("status_text", VStr st);
          ("status_class", VStr sc);
          ("status_arrow", VStr ar);
          ("subtitle", VStr sub);
          ("giphy_embed_code", VStr giphy_embed_code);
          ("index_change_percent", VStr pct);
          ("index_current_price", VStr price);
          ("index_symbol", VStr INDEX_SYMBOL);
          ("generation_time", VStr now);
          ("error_message", match err with Some m => VStr m | None => VNone end)]).

(** [now] is the text of [datetime.now().strftime('%Y-%m-%d %H:%M:%S %Z')]
    at line 138. *)
Definition get_market_data_M (API_KEY : string) (session_get : string -> fetch_outcome)
    (now : string) : M locals (gmap string pyval) :=
  try_except (try_body API_KEY session_get) except_handlers ;;
  build_report now.

Definition get_market_data (API_KEY : string) (session_get : string -> fetch_outcome)
    (now : string) : result (gmap string pyval) :=
  fst (get_market_data_M API_KEY session_get now init_locals).

Local Close Scope py_scope.

(** ** [generate_html] (lines 182-201) *)

(** [os.path.join(a, b)] on POSIX paths. *)
Definition starts_with_slash (s : string) : bool :=
  match s with
  | String c _ => Ascii.eqb c "/"
  | EmptyString => false
  end.

Fixpoint ends_with_slash (s : string) : bool :=
  match s with
  | EmptyString => false
  | String c EmptyString => Ascii.eqb c "/"
  | String _ rest => ends_with_slash rest
  end.

Definition path_join (a b : string) : string :=
  if starts_with_slash b then b
  else if (String.eqb a "" || ends_with_slash a)%bool then a +:+ b
  else a +:+ "/" +:+ b.

(** A loaded template is what [template.render] does with the data. *)
Definition template : Type := gmap string pyval -> result string.

(** The machine the script runs on: where the script lives, what [jinja2]
    makes of a template text (a template, or an exception for a text it
    cannot parse), and which file operations fail: reading a file that
    exists, opening a file for writing, and writing to it, the last with the
    number of characters that reached the file before the failure. *)
Record host : Type := Host {
  SCRIPT_DIR : string;
  compile : string -> result template;
  read_raises : string -> option exn;
  open_raises : string -> option exn;
  write_raises : string -> option (exn * nat)
}.

(** Line 23. *)
Definition TEMPLATE_DIR (h : host) : string := SCRIPT_DIR h.

(** [Environment(loader=FileSystemLoader(dir)).get_template(name)]: the
    loader reads the file [name] of [dir] from the disk; a file that is not
    there is a [TemplateNotFound], whose text is the name. *)
Definition get_template (h : host) (files : gmap string string) (dir name : string)
  : result template :=
  match files !! path_join dir name with
  | None => Raise (OtherException name)
  | Some source =>
      match read_raises h (path_join dir name) with
      | Some e => Raise e
      | None => compile h source
      end
  end.

Definition load_template (h : host) (dir name : string)
  : M (gmap string string) template :=
  fun files => (get_template h files dir name, files).

(** [open(path, 'w')] truncates the file; [f.write(text)] and the closing
    of the file fill it, or leave the part that was written before the
    failure. *)
Definition open_w (h : host) (path : string) : M (gmap string string) unit :=
  fun files =>
    match open_raises h path with
    | Some e => (Raise e, files)
    | None => (Ok tt, <[path := ""]> files)
    end.

Definition write (h : host) (path text : string) : M (gmap string string) unit :=
  fun files =>
    match write_raises h path with
    | Some (e, n) => (Raise e, <[path := substring 0 n text]> files)
    | None => (Ok tt, <[path := text]> files)
    end.

Local Open Scope py_scope.

Definition generate_html (h : host) (data : gmap string pyval)
  : M (gmap string string) bool :=
  try_except
    (tpl <- load_template h (TEMPLATE_DIR h) HTML_TEMPLATE_FILE ;;
     output_content <- lift (tpl data) ;;
     let output_path := path_join (SCRIPT_DIR h) OUTPUT_HTML_FILE in
     open_w h output_path ;;
     write h output_path output_content ;;
     ret true)
    (fun _ => ret false).

Local Close Scope py_scope.

(** ** The script as a process (lines 10-13 and 204-217) *)

(** One run: the value of [FINANCIAL_API_KEY] once [load_dotenv] has run
    ([None] when unset), the network, the clock, the machine and the files
    on disk.  The imports of lines 1-5 are taken to succeed. *)
Record world : Type := World {
  environ_FINANCIAL_API_KEY : option string;
  session_get : string -> fetch_outcome;
  now : string;
  machine : host;
  disk : gmap string string
}.

(** What a run leaves behind: the exit status, the URLs requested, in
    order, and the files. *)
Record outcome : Type := Outcome {
  exit_code : Z;
  requests : list string;
  disk_after : gmap string string
}.

(** [not API_KEY]: true for [None] and for the empty string. *)
Definition falsy (k : option string) : bool :=
  match k with
  | None => true
  | Some s => String.eqb s ""
  end.

(** [get_market_data] sends its one request (line 43) before anything in
    it can raise.  An exception that reaches the top level ends the process
    with status 1; falling off the end of the script ends it with 0. *)
Definition main (w : world) : outcome :=
  if falsy (environ_FINANCIAL_API_KEY w) then
    Outcome 1 [] (disk w)
  else
    let API_KEY := default "" (environ_FINANCIAL_API_KEY w) in
    match get_market_data API_KEY (session_get w) (now w) with
    | Raise _ => Outcome 1 [quote_url API_KEY] (disk w)
    | Ok market_data =>
        match generate_html (machine w) market_data (disk w) with
        | (Ok _, files) => Outcome 0 [quote_url API_KEY] files
        | (Raise _, files) => Outcome 1 [quote_url API_KEY] files
        end
    end.

(** ** Definitions used in the statements *)

(** The exact value of the double [0.2]. *)
Definition value_0_2 : Q := 7205759403792794 # 36028797018963968.

(** The threshold chain of lines 59-88 as a function of the value. *)
Definition category_of (n : xnum) : string :=
  if xle n (lit_xnum (LInt (-10))) then "yes"
  else if xle n (lit_xnum (LInt (-5))) then "bleeding"
  else if xlt n (lit_xnum (LInt (-2))) then "wobbly"
  else if xgt n (lit_xnum (LInt 2)) then "no"
  else if xgt n (lit_xnum (LFloat double_0_2)) then "climbing"
  else "sideways".

(** The ranges as the specification words them (section 4.1, step 4), with
    0.2 read as the double the source compares against. *)
Definition spec_category (c : string) (q : Q) : Prop :=
  (c = "yes" /\ q <= -10)%Q
  \/ (c = "bleeding" /\ q <= -5 /\ -10 < q)%Q
  \/ (c = "wobbly" /\ q < -2 /\ -5 < q)%Q
  \/ (c = "no" /\ 2 < q)%Q
  \/ (c = "climbing" /\ value_0_2 < q /\ q <= 2)%Q
  \/ (c = "sideways" /\ -2 <= q /\ q <= value_0_2)%Q.

(** The locals once the [try] statement of lines 39-121 is over. *)
Definition after_try (API_KEY : string) (session_get : string -> fetch_outcome) : locals :=
  snd (try_except (try_body API_KEY session_get) except_handlers init_locals).

(** The two formatted fields of lines 135-136. *)
Definition percent_field (x : pyval) : result string :=
  if is_None x then Ok "N/A"
  else match format_2f x with
       | Ok s => Ok (s +:+ "%")
       | Raise e => Raise e
       end.

Definition price_field (p : pyval) : result string :=
  if is_None p then Ok "N/A" else format_2f p.

(** A price the report can show: absent, or a number [float] can hold. *)
Definition showable (p : pyval) : Prop :=
  exists s, price_field p = Ok s.

(** [m * 2^e] is the double nearest to [x]: a mantissa of 53 bits and an
    error of at most half a unit in the last place. *)
Definition nearest_double (m : positive) (e : Z) (x : Q) : Prop :=
  (2 ^ 52 <= Zpos m < 2 ^ 53)%Z /\
  (Qabs (float_value false m e - x) <= float_value false 1 (e - 1))%Q.

(** The doubles nearest to 450.1234 and to 3.5:
    0x1.c21f972474539p+8 and 0x1.cp+1. *)
Definition double_450_1234 : spec_float := S754_finite false 7918654595745081 (-44).
Definition double_3_5 : spec_float := S754_finite false 7881299347898368 (-51).

(** Lines 48-54 on a [dict] body: the percent change with its default, the
    price, and the advisory message. *)
Definition percent_change (d : gmap string pyval) : pyval :=
  let dp := default VNone (d !! "dp") in
  if is_None dp then VInt 0 else dp.

Definition price (d : gmap string pyval) : pyval := default VNone (d !! "c").

Definition advisory (d : gmap string pyval) : option string :=
  if is_None (default VNone (d !! "dp"))
  then Some ("Could not retrieve percent change for " +:+ INDEX_SYMBOL +:+ ".")
  else None.

(** The locals when line 56 is reached. *)
Definition at_line_56 (d : gmap string pyval) : locals :=
  Locals (percent_change d) (price d) (advisory d)
         "MAYBE?" "maybe" "Checking the market pulse..." "".

(** The [dict] of lines 129-140 from the locals and the two formatted
    fields. *)
Definition report_dict (st : locals) (pct prc now : string) : gmap string pyval :=
  list_to_map
    [("status_text", VStr (status_text st));
     ("status_class", VStr (status_class st));
     ("status_arrow", VStr (arrow_character st));
     ("subtitle", VStr (subtitle st));
     ("giphy_embed_code", VStr (get_visual_humor_embed (status_class st)));
     ("index_change_percent", VStr pct);
     ("index_current_price", VStr prc);
     ("index_symbol", VStr INDEX_SYMBOL);
     ("generation_time", VStr now);
     ("error_message", match error_msg st with Some m => VStr m | None => VNone end)].

(** ** Sample inputs *)

(** A quote body with the two fields the script reads. *)
Definition quote_body (dp c : pyval) : pyval :=
  VDict {[ "dp" := dp; "c" := c ]}.

Definition answers (v : pyval) : string -> fetch_outcome := fun _ => FetchJson v.

Definition times_out : string -> fetch_outcome :=
  fun _ => FetchRaises (Timeout "HTTPSConnectionPool(host='finnhub.io', port=443): Read timed out. (read timeout=10)").

(** The report of a run whose request timed out. *)
Definition timeout_example : gmap string pyval :=
  report_dict (Locals (VInt 0) VNone (Some "API request timed out.") "ERROR" "error"
                      "Could not fetch market data." "?")
              "0.00%" "N/A" "2025-04-07 16:00:00 ".

(** The same world at another reading of the clock, and a second run at
    another time over the files the first run left. *)
Definition at_time (w : world) (t : string) : world :=
  World (environ_FINANCIAL_API_KEY w) (session_get w) t (machine w) (disk w).

Definition rerun (w : world) (t : string) : world :=
  World (environ_FINANCIAL_API_KEY w) (session_get w) t (machine w)
        (disk_after (main w)).

(** Where the template is read from and where the page is written. *)
Definition template_path (h : host) : string :=
  path_join (TEMPLATE_DIR h) HTML_TEMPLATE_FILE.

Definition output_path (h : host) : string :=
  path_join (SCRIPT_DIR h) OUTPUT_HTML_FILE.

(** The template on disk does not look at [generation_time]. *)
Definition ignores_generation_time (h : host) (files : gmap string string) : Prop :=
  forall tpl, get_template h files (TEMPLATE_DIR h) HTML_TEMPLATE_FILE = Ok tpl ->
  forall data v, tpl (<["generation_time" := v]> data) = tpl data.

(** Two template texts and what they render: the class and the price, and
    the same followed by the time stamp. *)
Definition plain_source : string :=
  "<h1 class={{ status_class }}>{{ index_current_price }}</h1>".

Definition stamped_source : string :=
  "<h1 class={{ status_class }}>{{ index_current_price }}</h1><p>{{ generation_time }}</p>".

Definition class_and_price (data : gmap string pyval) : result string :=
  match data !! "status_class", data !! "index_current_price" with
  | Some (VStr c), Some (VStr p) => Ok ("<h1 class=" +:+ c +:+ ">" +:+ p +:+ "</h1>")
  | _, _ => Raise (OtherException "'status_class' is undefined")
  end.

Definition class_price_stamp (data : gmap string pyval) : result string :=
  match data !! "status_class", data !! "index_current_price",
        data !! "generation_time" with
  | Some (VStr c), Some (VStr p), Some (VStr t) =>
      Ok (("<h1 class=" +:+ c +:+ ">" +:+ p +:+ "</h1><p>") +:+ t +:+ "</p>")
  | _, _, _ => Raise (OtherException "'status_class' is undefined")
  end.

Definition sample_compile (source : string) : result template :=
  if String.eqb source plain_source then Ok class_and_price
  else if String.eqb source stamped_source then Ok class_price_stamp
  else Raise (OtherException "unexpected end of template").

(** A machine on which no file operation fails, and three disks: without
    a template, with the plain one, with the stamped one. *)
Definition with_template : host :=
  Host "/srv/site" sample_compile (fun _ => None) (fun _ => None) (fun _ => None).

Definition plain_site : gmap string string :=
  {[ "/srv/site/template.html" := plain_source ]}.

Definition stamped_site : gmap string string :=
  {[ "/srv/site/template.html" := stamped_source ]}.

Definition timeout_no_template : world :=
  World (Some "key") times_out "2025-04-07 16:00:00 " with_template ∅.

Definition empty_key : world :=
  World (Some "") times_out "2025-04-07 16:00:00 " with_template plain_site.

Definition good_day : world :=
  World (Some "key") (answers (quote_body (VFloat double_3_5) (VFloat double_450_1234)))
        "2025-04-07 16:00:00 " with_template plain_site.

Definition good_day_stamped : world :=
  World (Some "key") (answers (quote_body (VFloat double_3_5) (VFloat double_450_1234)))
        "2025-04-07 16:00:00 " with_template stamped_site.

(** ** Tables read off the branches *)

(** What lines 60-88 and the handlers assign together with each class: the
    label, the arrow, and the subtitle around the formatted change [s]. *)
Definition label_of (c : string) : string :=
  if String.eqb c "yes" then "YES!"
  else if String.eqb c "bleeding" then "BLEEDING"
  else if String.eqb c "wobbly" then "WOBBLY"
  else if String.eqb c "no" then "NOT YET!"
  else if String.eqb c "climbing" then "CLIMBING"
  else if String.eqb c "sideways" then "FLAT"
  else if String.eqb c "error" then "ERROR"
  else "MAYBE?".

Definition arrow_of (c : string) : string :=
  if String.eqb c "yes" then "▼"
  else if String.eqb c "bleeding" then "▼"
  else if String.eqb c "wobbly" then "▼"
  else if String.eqb c "no" then "▲"
  else if String.eqb c "climbing" then "▲"
  else if String.eqb c "sideways" then "▬"
  else if String.eqb c "error" then "?"
  else "".

Definition subtitle_of (c s : string) : string :=
  if String.eqb c "yes" then "S&P 500 down " +:+ s +:+ "%. Deep breaths."
  else if String.eqb c "bleeding" then "S&P 500 down " +:+ s +:+ "%. Minor dip."
  else if String.eqb c "wobbly" then "S&P 500 down " +:+ s +:+ "%. Looking shaky."
  else if String.eqb c "no" then "S&P 500 up " +:+ s +:+ "%. Still climbing!"
  else if String.eqb c "climbing" then "S&P 500 up " +:+ s +:+ "%. Gentle rise."
  else "S&P 500 change: " +:+ s +:+ "%. Holding steady...".

(** The classes in the order of the thresholds, from crash to rally. *)
Definition rank (c : string) : Z :=
  if String.eqb c "yes" then 0
  else if String.eqb c "bleeding" then 1
  else if String.eqb c "wobbly" then 2
  else if String.eqb c "sideways" then 3
  else if String.eqb c "climbing" then 4
  else 5.

(** The exceptions the first three handlers take. *)
Definition transport_error (e : exn) : bool :=
  match e with
  | Timeout _ | HTTPError _ _ | RequestException _ => true
  | _ => false
  end.

(** More sample runs: a rejected key, a machine on which the write fails
    after nine characters, a disk with a page from an earlier run. *)
Definition forbidden : string -> fetch_outcome :=
  fun url => FetchRaises (HTTPError ("403 Client Error: Forbidden for url: " +:+ url) None).

Definition disk_full : host :=
  Host "/srv/site" sample_compile (fun _ => None) (fun _ => None)
       (fun _ => Some (OtherException "[Errno 28] No space left on device", 9%nat)).

Definition old_page : gmap string string :=
  {[ "/srv/site/index.html" := "<h1 class=no>449.00</h1>";
     "/srv/site/template.html" := plain_source ]}.

Definition page_without_template : gmap string string :=
  {[ "/srv/site/index.html" := "<h1 class=no>449.00</h1>" ]}.

Definition bad_quote : world :=
  World (Some "key") (answers (quote_body (VStr "abc") (VFloat double_450_1234)))
        "2025-04-07 16:00:00 " with_template old_page.

Definition outage : world :=
  World (Some "key") times_out "2025-04-07 16:00:00 " with_template old_page.

(** * Properties *)

(** ** Numbers and thresholds *)

Lemma xle_fin (p q : Q) : xle (XFin p) (XFin q) = true <-> (p <= q)%Q.
Proof.
  unfold xle; simpl. rewrite Qle_alt.
  destruct (p ?= q)%Q; split; intros; congruence.
Qed.

Lemma xlt_fin (p q : Q) : xlt (XFin p) (XFin q) = true <-> (p < q)%Q.
Proof.
  unfold xlt; simpl. rewrite Qlt_alt.
  destruct (p ?= q)%Q; split; intros; congruence.
Qed.

Lemma xgt_fin (p q : Q) : xgt (XFin p) (XFin q) = true <-> (q < p)%Q.
Proof.
  unfold xgt; simpl. rewrite Qgt_alt.
  destruct (p ?= q)%Q; split; intros; congruence.
Qed.

Lemma double_0_2_value : float_xnum double_0_2 = XFin value_0_2.
Proof. reflexivity. Qed.

(** The three constants are the doubles Python reads from the decimals. *)
Lemma double_0_2_nearest : nearest_double 7205759403792794 (-55) (2 # 10).
Proof. repeat split; vm_compute; discriminate. Qed.

Lemma double_450_1234_nearest : nearest_double 7918654595745081 (-44) (4501234 # 10000).
Proof. repeat split; vm_compute; discriminate. Qed.

Lemma double_3_5_nearest : nearest_double 7881299347898368 (-51) (35 # 10).
Proof. repeat split; vm_compute; discriminate. Qed.

Lemma category_of_fin (q : Q) :
  category_of (XFin q) =
    if xle (XFin q) (XFin (-10)) then "yes"
    else if xle (XFin q) (XFin (-5)) then "bleeding"
    else if xlt (XFin q) (XFin (-2)) then "wobbly"
    else if xgt (XFin q) (XFin 2) then "no"
    else if xgt (XFin q) (XFin value_0_2) then "climbing"
    else "sideways".
Proof. reflexivity. Qed.

Ltac decide_cmp :=
  repeat match goal with
  | H : xle (XFin _) (XFin _) = true |- _ => apply xle_fin in H
  | H : xlt (XFin _) (XFin _) = true |- _ => apply xlt_fin in H
  | H : xgt (XFin _) (XFin _) = true |- _ => apply xgt_fin in H
  | H : xle (XFin _) (XFin _) = false |- _ =>
      apply not_true_iff_false in H; rewrite xle_fin in H
  | H : xlt (XFin _) (XFin _) = false |- _ =>
      apply not_true_iff_false in H; rewrite xlt_fin in H
  | H : xgt (XFin _) (XFin _) = false |- _ =>
      apply not_true_iff_false in H; rewrite xgt_fin in H
  end.

Ltac pick_range :=
  first [ left; split; [reflexivity | try split; lra]
        | right; pick_range
        | split; [reflexivity | try split; lra] ].

(** The chain computes the specification's ranges. *)
Lemma category_of_spec (q : Q) (c : string) :
  spec_category c q <-> category_of (XFin q) = c.
Proof.
  rewrite category_of_fin. unfold spec_category, value_0_2.
  destruct (xle (XFin q) (XFin (-10))) eqn:H1;
  [|destruct (xle (XFin q) (XFin (-5))) eqn:H2;
    [|destruct (xlt (XFin q) (XFin (-2))) eqn:H3;
      [|destruct (xgt (XFin q) (XFin 2)) eqn:H4;
        [|destruct (xgt (XFin q) (XFin (7205759403792794 # 36028797018963968))) eqn:H5]]]];
  decide_cmp;
  (split;
   [ intros [[-> ?]|[[-> [? ?]]|[[-> [? ?]]|[[-> ?]|[[-> [? ?]]|[-> [? ?]]]]]]];
     first [reflexivity | exfalso; lra]
   | intros <-; pick_range ]).
Qed.

(** ** Running the monadic code *)

#[local] Arguments append : simpl never.
#[local] Arguments format_2f : simpl never.
#[local] Arguments num_of : simpl never.
#[local] Arguments get_visual_humor_embed : simpl never.

Ltac run_M :=
  cbv beta iota delta
    [bind lift gets modify ret try_except
     assign_overall_index_change assign_current_price assign_error_msg
     assign_status_text assign_status_class assign_subtitle assign_arrow_character
     py_le py_lt py_gt py_cmp
     overall_index_change current_price error_msg status_text status_class
     subtitle arrow_character fst snd].

Lemma category_of_enumerated (n : xnum) : category_of n ∈ status_classes.
Proof.
  unfold category_of, status_classes.
  repeat match goal with |- context [if ?b then _ else _] => destruct b end;
    set_solver.
Qed.

Lemma format_2f_numeric (x : pyval) (s : string) :
  format_2f x = Ok s -> exists n, num_of x = Some n.
Proof.
  destruct x; unfold format_2f, num_of; intros H; try discriminate; eauto.
Qed.

(** Every handler sets the same class and arrow, records a message, and
    leaves the two numeric locals alone. *)
Lemma except_handlers_run (e : exn) (st : locals) :
  exists msg sub,
    msg <> "" /\
    (forall t, e = Timeout t -> msg = "API request timed out.") /\
    except_handlers e st =
      (Ok tt, Locals (overall_index_change st) (current_price st) (Some msg)
                     "ERROR" "error" sub "?").
Proof.
  destruct st as [x p em t c sub ar].
  destruct e as [m|m [d|]|m|m|m|m|m|m];
    (eexists; eexists; split; [|split; [|unfold except_handlers; run_M; reflexivity]];
     [unfold append; discriminate | intros ? [=]; try reflexivity]).
Qed.

(** The chain sets [status_class] from the value alone, whether or not the
    subtitle can then be formatted. *)
Lemma determine_status_class (st : locals) (n : xnum) :
  num_of (overall_index_change st) = Some n ->
  status_class (snd (determine_status st)) = category_of n.
Proof.
  destruct st as [x p em t c sub ar]. simpl. intros Hn.
  unfold determine_status, category_of. run_M. rewrite Hn.
  repeat match goal with
         | |- context [if ?b then _ else _] => destruct b
         end;
    destruct (format_2f x); reflexivity.
Qed.

Lemma determine_status_run (st : locals) (n : xnum) (s : string) :
  num_of (overall_index_change st) = Some n ->
  format_2f (overall_index_change st) = Ok s ->
  exists txt sub ar,
    determine_status st =
      (Ok tt, Locals (overall_index_change st) (current_price st) (error_msg st)
                     txt (category_of n) sub ar).
Proof.
  destruct st as [x p em t c sub ar]. simpl. intros Hn Hs.
  unfold determine_status, category_of. run_M. rewrite Hn, Hs.
  repeat match goal with
         | |- context [if ?b then _ else _] => destruct b
         end;
    eauto.
Qed.

Lemma try_body_fetch_raises (k : string) (sg : string -> fetch_outcome) (e : exn) :
  sg (quote_url k) = FetchRaises e ->
  try_body k sg init_locals = (Raise e, init_locals).
Proof. intros H. unfold try_body. run_M. rewrite H. reflexivity. Qed.

Lemma try_body_not_dict (k : string) (sg : string -> fetch_outcome) (v : pyval) :
  sg (quote_url k) = FetchJson v -> (forall d, v <> VDict d) ->
  exists e, try_body k sg init_locals = (Raise e, init_locals).
Proof.
  intros H Hv. unfold try_body. run_M. rewrite H.
  destruct v; try (eexists; reflexivity). exfalso; eapply Hv; reflexivity.
Qed.

Lemma try_body_dict (k : string) (sg : string -> fetch_outcome) (d : gmap string pyval) :
  sg (quote_url k) = FetchJson (VDict d) ->
  try_body k sg init_locals =
    match format_2f (percent_change d) with
    | Ok _ => determine_status (at_line_56 d)
    | Raise e => (Raise e, at_line_56 d)
    end.
Proof.
  intros H. unfold try_body, at_line_56, percent_change, price, advisory.
  run_M. rewrite H. unfold py_get. unfold init_locals.
  destruct (is_None (default VNone (d !! "dp"))); run_M;
    match goal with |- context [format_2f ?x] => destruct (format_2f x) end;
    reflexivity.
Qed.

Lemma build_report_run (now : string) (st : locals) :
  build_report now st =
    (match percent_field (overall_index_change st) with
     | Raise e => Raise e
     | Ok pct =>
         match price_field (current_price st) with
         | Raise e => Raise e
         | Ok prc => Ok (report_dict st pct prc now)
         end
     end, st).
Proof.
  destruct st as [x p em t c sub ar].
  unfold build_report, percent_field, price_field, report_dict. run_M.
  destruct (is_None x); [|destruct (format_2f x)]; try reflexivity;
    (destruct (is_None p); [|destruct (format_2f p)]; reflexivity).
Qed.

Lemma get_market_data_run (k : string) (sg : string -> fetch_outcome) (now : string) :
  get_market_data k sg now = fst (build_report now (after_try k sg)).
Proof.
  unfold get_market_data, get_market_data_M, after_try, bind, try_except.
  destruct (try_body k sg init_locals) as [[[]|e] st]; [reflexivity|].
  destruct (except_handlers_run e st) as (msg & sub & _ & _ & ->). reflexivity.
Qed.

(** What [get_market_data] returns, from the locals its [try] leaves. *)
Lemma get_market_data_eq (k : string) (sg : string -> fetch_outcome) (now : string) :
  get_market_data k sg now =
    match percent_field (overall_index_change (after_try k sg)) with
    | Raise e => Raise e
    | Ok pct =>
        match price_field (current_price (after_try k sg)) with
        | Raise e => Raise e
        | Ok prc => Ok (report_dict (after_try k sg) pct prc now)
        end
    end.
Proof. rewrite get_market_data_run, build_report_run. reflexivity. Qed.

(** The four ways the [try] statement can end. *)
Lemma after_try_fetch_raises (k : string) (sg : string -> fetch_outcome) (e : exn) :
  sg (quote_url k) = FetchRaises e ->
  exists msg sub,
    msg <> "" /\ (forall t, e = Timeout t -> msg = "API request timed out.") /\
    after_try k sg = Locals (VInt 0) VNone (Some msg) "ERROR" "error" sub "?".
Proof.
  intros H. unfold after_try, try_except.
  rewrite (try_body_fetch_raises _ _ _ H).
  destruct (except_handlers_run e init_locals) as (msg & sub & ? & ? & ->).
  exists msg, sub. auto.
Qed.

Lemma after_try_not_dict (k : string) (sg : string -> fetch_outcome) (v : pyval) :
  sg (quote_url k) = FetchJson v -> (forall d, v <> VDict d) ->
  exists msg sub,
    msg <> "" /\
    after_try k sg = Locals (VInt 0) VNone (Some msg) "ERROR" "error" sub "?".
Proof.
  intros H Hv. unfold after_try, try_except.
  destruct (try_body_not_dict _ _ _ H Hv) as [e ->].
  destruct (except_handlers_run e init_locals) as (msg & sub & ? & ? & ->).
  exists msg, sub. auto.
Qed.

Lemma after_try_unformattable (k : string) (sg : string -> fetch_outcome)
    (d : gmap string pyval) (e : exn) :
  sg (quote_url k) = FetchJson (VDict d) ->
  format_2f (percent_change d) = Raise e ->
  exists msg sub,
    msg <> "" /\
    after_try k sg =
      Locals (percent_change d) (price d) (Some msg) "ERROR" "error" sub "?".
Proof.
  intros H He. unfold after_try, try_except.
  rewrite (try_body_dict _ _ _ H), He.
  destruct (except_handlers_run e (at_line_56 d)) as (msg & sub & ? & ? & ->).
  exists msg, sub. auto.
Qed.

Lemma after_try_classified (k : string) (sg : string -> fetch_outcome)
    (d : gmap string pyval) (s : string) :
  sg (quote_url k) = FetchJson (VDict d) ->
  format_2f (percent_change d) = Ok s ->
  exists n txt sub ar,
    num_of (percent_change d) = Some n /\
    after_try k sg =
      Locals (percent_change d) (price d) (advisory d) txt (category_of n) sub ar.
Proof.
  intros H Hs. unfold after_try, try_except.
  rewrite (try_body_dict _ _ _ H), Hs.
  destruct (format_2f_numeric _ _ Hs) as [n Hn].
  destruct (determine_status_run (at_line_56 d) n s Hn Hs) as (txt & sub & ar & ->).
  exists n, txt, sub, ar. auto.
Qed.

(** Whatever the network answers, the [try] statement ends in one of the
    seven categories. *)
Lemma after_try_enumerated (k : string) (sg : string -> fetch_outcome) :
  status_class (after_try k sg) ∈ status_classes.
Proof.
  destruct (sg (quote_url k)) as [e|v] eqn:H.
  - destruct (after_try_fetch_raises _ _ _ H) as (? & ? & _ & _ & ->).
    simpl. set_solver.
  - assert (Hv : (exists d, v = VDict d) \/ (forall d, v <> VDict d)).
    { destruct v; try (right; intros ? [=]; fail). left; eauto. }
    destruct Hv as [[d ->]|Hv].
    + destruct (format_2f (percent_change d)) as [s|e] eqn:Hf.
      * destruct (after_try_classified _ _ _ _ H Hf) as (n & ? & ? & ? & _ & ->).
        simpl. apply category_of_enumerated.
      * destruct (after_try_unformattable _ _ _ _ H Hf) as (? & ? & _ & ->).
        simpl. set_solver.
    + destruct (after_try_not_dict _ _ _ H Hv) as (? & ? & _ & ->).
      simpl. set_solver.
Qed.

Lemma report_dict_lookup (st : locals) (pct prc now : string) :
  let r := report_dict st pct prc now in
  r !! "status_text" = Some (VStr (status_text st)) /\
  r !! "status_class" = Some (VStr (status_class st)) /\
  r !! "status_arrow" = Some (VStr (arrow_character st)) /\
  r !! "subtitle" = Some (VStr (subtitle st)) /\
  r !! "giphy_embed_code" = Some (VStr (get_visual_humor_embed (status_class st))) /\
  r !! "index_change_percent" = Some (VStr pct) /\
  r !! "index_current_price" = Some (VStr prc) /\
  r !! "index_symbol" = Some (VStr INDEX_SYMBOL) /\
  r !! "generation_time" = Some (VStr now) /\
  r !! "error_message" =
    Some (match error_msg st with Some m => VStr m | None => VNone end).
Proof. repeat split; reflexivity. Qed.

(** A successful, classified fetch: the report carries the category of the
    value, the formatted fields and the advisory message. *)
Lemma get_market_data_classified (k : string) (sg : string -> fetch_outcome)
    (now : string) (d : gmap string pyval) (s prc : string) :
  sg (quote_url k) = FetchJson (VDict d) ->
  format_2f (percent_change d) = Ok s ->
  price_field (price d) = Ok prc ->
  exists n r,
    num_of (percent_change d) = Some n /\
    get_market_data k sg now = Ok r /\
    r !! "status_class" = Some (VStr (category_of n)) /\
    r !! "giphy_embed_code" = Some (VStr (get_visual_humor_embed (category_of n))) /\
    r !! "index_change_percent" = Some (VStr (s +:+ "%")) /\
    r !! "index_current_price" = Some (VStr prc) /\
    r !! "error_message" =
      Some (match advisory d with Some m => VStr m | None => VNone end).
Proof.
  intros H Hs Hp.
  destruct (after_try_classified _ _ _ _ H Hs) as (n & txt & sub & ar & Hn & Hst).
  assert (Hpct : percent_field (percent_change d) = Ok (s +:+ "%")).
  { unfold percent_field. rewrite Hs.
    destruct (percent_change d); try reflexivity. discriminate Hn. }
  exists n. eexists. split; [exact Hn|].
  rewrite get_market_data_eq, Hst. simpl. rewrite Hpct, Hp.
  split; [reflexivity|]. repeat split; reflexivity.
Qed.

Lemma percent_change_present (d : gmap string pyval) (dp : pyval) (n : xnum) :
  d !! "dp" = Some dp -> num_of dp = Some n ->
  percent_change d = dp /\ advisory d = None.
Proof.
  intros Hd Hn. unfold percent_change, advisory. rewrite Hd. simpl.
  destruct dp; try discriminate Hn; auto.
Qed.

Lemma format_2f_small_int (z : Z) :
  (-9007199254740992 < z < 9007199254740992) -> exists s, format_2f (VInt z) = Ok s.
Proof.
  intros Hz. unfold format_2f, float_of_int.
  destruct z as [|p|p]; [eauto| |];
    (assert (Hb : (Z.log2 (Z.pos p) + 1 <=? 53) = true);
     [ apply Z.leb_le;
       assert (Z.log2 (Z.pos p) < 53) by (apply Z.log2_lt_pow2; lia); lia
     | rewrite Hb; eauto ]).
Qed.

Lemma format_2f_value (x : pyval) (q : Q) :
  num_of x = Some (XFin q) -> (-100 <= q <= 100)%Q -> exists s, format_2f x = Ok s.
Proof.
  intros Hn Hq. destruct x; try discriminate Hn.
  - unfold format_2f. eauto.
  - injection Hn as <-. apply format_2f_small_int.
    destruct Hq as [H1 H2]. unfold Qle in *. simpl in *. lia.
  - unfold format_2f. eauto.
Qed.

(** The same for a body that holds just the two fields. *)
Lemma quote_body_report (k now : string) (dp c : pyval) (s prc : string) (n : xnum) :
  format_2f dp = Ok s ->
  price_field c = Ok prc ->
  num_of dp = Some n ->
  exists r,
    get_market_data k (answers (quote_body dp c)) now = Ok r /\
    r !! "status_class" = Some (VStr (category_of n)) /\
    r !! "index_change_percent" = Some (VStr (s +:+ "%")) /\
    r !! "index_current_price" = Some (VStr prc) /\
    r !! "error_message" = Some VNone.
Proof.
  intros Hs Hp Hn.
  set (d := {[ "dp" := dp; "c" := c ]} : gmap string pyval).
  assert (Hd : d !! "dp" = Some dp) by reflexivity.
  destruct (percent_change_present d dp n Hd Hn) as [Hx Ha].
  destruct (get_market_data_classified k (answers (quote_body dp c)) now d s prc)
    as (n' & r & Hn' & Hr & Hc & _ & Hpct & Hprc & He).
  - reflexivity.
  - rewrite Hx. exact Hs.
  - exact Hp.
  - exists r. rewrite Ha in He. rewrite Hx, Hn in Hn'. injection Hn' as <-. auto.
Qed.

(** ** The claims *)

(** C4. For every number with a finite value, the threshold chain of lines
    59-88 leaves [status_class] at exactly one category: the one, and the
    only one, whose range in the specification contains the value.  At the
    boundaries: -10 is "yes", -5 is "bleeding", -2 is "sideways" and the
    double 0.2 is "sideways". *)
Theorem classification_partition (st : locals) (q : Q) :
  num_of (overall_index_change st) = Some (XFin q) ->
  let c := status_class (snd (determine_status st)) in
  (forall c', spec_category c' q <-> c' = c) /\
  (q == -10 -> c = "yes")%Q /\
  (q == -5 -> c = "bleeding")%Q /\
  (q == -2 -> c = "sideways")%Q /\
  (q == value_0_2 -> c = "sideways")%Q.
Proof.
  intros Hn c. assert (Hc : c = category_of (XFin q)).
  { apply determine_status_class. exact Hn. }
  rewrite Hc. split; [|repeat split].
  - intros c'. rewrite category_of_spec. split; congruence.
  - intros Hq. apply category_of_spec. unfold spec_category. pick_range.
  - intros Hq. apply category_of_spec. unfold spec_category. pick_range.
  - intros Hq. apply category_of_spec. unfold spec_category, value_0_2.
    pick_range.
  - intros Hq. apply category_of_spec. unfold spec_category, value_0_2 in *.
    pick_range.
Qed.

Lemma classification_partition_witness :
  let st := at_line_56 {[ "dp" := VInt (-10) ]} in
  num_of (overall_index_change st) = Some (XFin (inject_Z (-10))) /\
  status_class (snd (determine_status st)) = "yes".
Proof.
  split; [reflexivity|].
  apply (classification_partition (at_line_56 {[ "dp" := VInt (-10) ]}) (inject_Z (-10)));
    reflexivity.
Defined.

(** C1, as the code has it. For a successful fetch whose daily percent
    change is exactly 2 the [try] statement ends with class "climbing" (2 is
    not above 2, and it is above 0.2), every report returned for such a
    fetch has class "climbing", and a report is returned whenever the price
    is absent or a value that ['.2f'] formats. *)
Theorem change_of_2_is_climbing (k : string) (sg : string -> fetch_outcome)
    (now : string) (d : gmap string pyval) (dp : pyval) (q : Q) :
  sg (quote_url k) = FetchJson (VDict d) ->
  d !! "dp" = Some dp ->
  num_of dp = Some (XFin q) ->
  (q == 2)%Q ->
  status_class (after_try k sg) = "climbing" /\
  (forall r, get_market_data k sg now = Ok r ->
             r !! "status_class" = Some (VStr "climbing")) /\
  (showable (price d) -> exists r, get_market_data k sg now = Ok r).
Proof.
  intros H Hd Hn Hq.
  destruct (percent_change_present _ _ _ Hd Hn) as [Hx _].
  destruct (format_2f_value dp q Hn) as [s Hs]; [lra|].
  rewrite <- Hx in Hs, Hn.
  destruct (after_try_classified k sg d s H Hs) as (n & txt & sub & ar & Hn' & Hst).
  assert (n = XFin q) as -> by congruence.
  assert (Hc : category_of (XFin q) = "climbing").
  { apply category_of_spec. unfold spec_category, value_0_2. pick_range. }
  rewrite Hc in Hst. split; [|split].
  - rewrite Hst. reflexivity.
  - intros r Hr. rewrite get_market_data_eq, Hst in Hr. simpl in Hr.
    destruct (percent_field (percent_change d)); [|discriminate Hr].
    destruct (price_field (price d)); [|discriminate Hr].
    injection Hr as <-. reflexivity.
  - intros [prc Hp].
    destruct (get_market_data_classified k sg now d s prc H Hs Hp)
      as (_ & r & _ & Hr & _).
    exists r. exact Hr.
Qed.

Lemma change_of_2_is_climbing_witness :
  exists r,
    get_market_data "key" (answers (quote_body (VInt 2) (VFloat double_450_1234)))
                    "2025-04-07 16:00:00 " = Ok r /\
    r !! "status_class" = Some (VStr "climbing").
Proof.
  destruct (change_of_2_is_climbing "key"
              (answers (quote_body (VInt 2) (VFloat double_450_1234)))
              "2025-04-07 16:00:00 "
              {[ "dp" := VInt 2; "c" := VFloat double_450_1234 ]} (VInt 2) 2%Q
              eq_refl eq_refl eq_refl eq_refl)
    as (_ & Hall & Hret).
  destruct (Hret (ex_intro _ "450.12" eq_refl)) as [r Hr].
  exists r. split; [exact Hr | exact (Hall r Hr)].
Defined.

(** C1, as stated, fails: with a percent change of exactly 2 the report is
    "climbing", not "sideways". *)
Lemma change_of_2_is_not_sideways :
  exists r,
    get_market_data "key" (answers (quote_body (VInt 2) (VFloat double_450_1234)))
                    "2025-04-07 16:00:00 " = Ok r /\
    r !! "status_class" = Some (VStr "climbing") /\
    r !! "status_class" <> Some (VStr "sideways").
Proof.
  destruct (quote_body_report "key" "2025-04-07 16:00:00 " (VInt 2)
              (VFloat double_450_1234) "2.00" "450.12" (XFin 2)
              eq_refl eq_refl eq_refl)
    as (r & Hr & Hc & _).
  exists r. split; [exact Hr|]. rewrite Hc. split; [reflexivity|discriminate].
Qed.

(** C2, where the code departs from it. When the request times out the
    report has class "error", arrow "?" and the message "API request timed
    out.", the price is "N/A", but the percent change is shown as "0.00%":
    the local starts at 0 (line 29), not at [None], so the "N/A" of line 135
    is not taken. *)
Theorem timeout_report (k now t : string) :
  exists r,
    get_market_data k (fun _ => FetchRaises (Timeout t)) now = Ok r /\
    r !! "status_class" = Some (VStr "error") /\
    r !! "status_arrow" = Some (VStr "?") /\
    r !! "error_message" = Some (VStr "API request timed out.") /\
    r !! "index_current_price" = Some (VStr "N/A") /\
    r !! "index_change_percent" = Some (VStr "0.00%") /\
    r !! "index_change_percent" <> Some (VStr "N/A").
Proof.
  destruct (after_try_fetch_raises k (fun _ => FetchRaises (Timeout t)) (Timeout t) eq_refl)
    as (msg & sub & _ & Hmsg & Hst).
  rewrite (Hmsg t eq_refl) in Hst.
  eexists. rewrite get_market_data_eq, Hst. simpl.
  split; [reflexivity|]. repeat split; try reflexivity. discriminate.
Qed.

(** C3, where the code departs from it. A body whose percent change is a
    string makes line 56 raise inside the [try]; the handler turns that into
    the "error" state, but the string stays in [overall_index_change] and
    line 135 formats it again, outside the [try]: the [ValueError] reaches
    the caller. *)
Theorem string_percent_raises (k now s : string) (c : pyval) :
  get_market_data k (answers (quote_body (VStr s) c)) now =
    Raise (ValueError "Unknown format code 'f' for object of type 'str'").
Proof.
  set (d := {[ "dp" := VStr s; "c" := c ]} : gmap string pyval).
  destruct (after_try_unformattable k (answers (quote_body (VStr s) c)) d
              (ValueError "Unknown format code 'f' for object of type 'str'")
              eq_refl eq_refl)
    as (msg & sub & _ & Hst).
  rewrite get_market_data_eq, Hst. reflexivity.
Qed.

(** A body without the percent-change field, as far as the code handles
    it: the [try] statement ends with the change at 0, class "sideways" and
    a non-empty advisory message; when the price is absent or a value that
    ['.2f'] formats, the report returned shows the change as "0.00%", has
    class "sideways" (so not "error") and carries the advisory message. *)
Theorem missing_percent_is_flat (k : string) (sg : string -> fetch_outcome)
    (now : string) (d : gmap string pyval) :
  sg (quote_url k) = FetchJson (VDict d) ->
  d !! "dp" = None ->
  (overall_index_change (after_try k sg) = VInt 0 /\
   status_class (after_try k sg) = "sideways" /\
   exists msg, error_msg (after_try k sg) = Some msg /\ msg <> "") /\
  (showable (price d) ->
   exists r msg,
     get_market_data k sg now = Ok r /\
     r !! "status_class" = Some (VStr "sideways") /\
     r !! "status_class" <> Some (VStr "error") /\
     r !! "index_change_percent" = Some (VStr "0.00%") /\
     r !! "error_message" = Some (VStr msg) /\
     msg <> "").
Proof.
  intros H Hd.
  assert (Hx : percent_change d = VInt 0) by (unfold percent_change; rewrite Hd; reflexivity).
  assert (Ha : advisory d = Some "Could not retrieve percent change for SPY.")
    by (unfold advisory; rewrite Hd; reflexivity).
  assert (Hs : format_2f (percent_change d) = Ok "0.00") by (rewrite Hx; reflexivity).
  split.
  - destruct (after_try_classified k sg d "0.00" H Hs) as (n & txt & sub & ar & Hn & ->).
    rewrite Hx in Hn. injection Hn as <-. rewrite Hx, Ha. simpl.
    repeat split. eexists. split; [reflexivity|discriminate].
  - intros [prc Hp].
    destruct (get_market_data_classified k sg now d "0.00" prc H Hs Hp)
      as (n & r & Hn & Hr & Hc & _ & Hpct & _ & He).
    rewrite Hx in Hn. injection Hn as <-. rewrite Ha in He.
    exists r, "Could not retrieve percent change for SPY.".
    rewrite Hc. repeat split; auto; discriminate.
Qed.

Lemma missing_percent_is_flat_witness :
  exists r msg,
    get_market_data "key" (answers (VDict {[ "c" := VFloat double_450_1234 ]}))
                    "2025-04-07 16:00:00 " = Ok r /\
    r !! "status_class" = Some (VStr "sideways") /\
    r !! "status_class" <> Some (VStr "error") /\
    r !! "index_change_percent" = Some (VStr "0.00%") /\
    r !! "error_message" = Some (VStr msg) /\
    msg <> "".
Proof.
  apply (missing_percent_is_flat "key" _ _ {[ "c" := VFloat double_450_1234 ]}).
  - reflexivity.
  - reflexivity.
  - exists "450.12". reflexivity.
Defined.

(** C5, where the code departs from it. A body without the percent-change
    field whose price is a string: the [try] statement does what the claim
    says (change 0, class "sideways", advisory message, no "error"), but
    line 136 then formats the price outside the [try] and the [ValueError]
    reaches the caller, so no report is returned. *)
Theorem missing_percent_string_price (k now s : string) :
  overall_index_change (after_try k (answers (VDict {[ "c" := VStr s ]}))) = VInt 0 /\
  status_class (after_try k (answers (VDict {[ "c" := VStr s ]}))) = "sideways" /\
  error_msg (after_try k (answers (VDict {[ "c" := VStr s ]}))) =
    Some "Could not retrieve percent change for SPY." /\
  get_market_data k (answers (VDict {[ "c" := VStr s ]})) now =
    Raise (ValueError "Unknown format code 'f' for object of type 'str'").
Proof.
  set (d := {[ "c" := VStr s ]} : gmap string pyval).
  destruct (after_try_classified k (answers (VDict d)) d "0.00" eq_refl eq_refl)
    as (n & txt & sub & ar & Hn & Hst).
  change (num_of (VInt 0) = Some n) in Hn. injection Hn as <-.
  rewrite get_market_data_eq, Hst. repeat split; reflexivity.
Qed.

(** C7. A body with price 450.1234 and percent change 3.5 gives price
    "450.12", change "3.50%" and class "no". *)
Theorem report_450_1234_and_3_5 (k : string) (sg : string -> fetch_outcome)
    (now : string) (d : gmap string pyval) :
  sg (quote_url k) = FetchJson (VDict d) ->
  d !! "c" = Some (VFloat double_450_1234) ->
  d !! "dp" = Some (VFloat double_3_5) ->
  exists r,
    get_market_data k sg now = Ok r /\
    r !! "index_current_price" = Some (VStr "450.12") /\
    r !! "index_change_percent" = Some (VStr "3.50%") /\
    r !! "status_class" = Some (VStr "no").
Proof.
  intros H Hc Hd.
  destruct (percent_change_present d _ _ Hd eq_refl) as [Hx _].
  destruct (get_market_data_classified k sg now d "3.50" "450.12" H)
    as (n & r & Hn & Hr & Hcl & _ & Hpct & Hprc & _).
  - rewrite Hx. reflexivity.
  - unfold price. rewrite Hc. reflexivity.
  - rewrite Hx in Hn. injection Hn as <-. exists r. auto.
Qed.

Lemma report_450_1234_and_3_5_witness :
  exists r,
    get_market_data "key"
      (answers (quote_body (VFloat double_3_5) (VFloat double_450_1234)))
      "2025-04-07 16:00:00 " = Ok r /\
    r !! "index_current_price" = Some (VStr "450.12") /\
    r !! "index_change_percent" = Some (VStr "3.50%") /\
    r !! "status_class" = Some (VStr "no").
Proof.
  apply (report_450_1234_and_3_5 "key" _ _
           {[ "dp" := VFloat double_3_5; "c" := VFloat double_450_1234 ]});
    reflexivity.
Defined.

(** ** The embed table *)

Lemma embed_enumerated (c : string) :
  c ∈ status_classes -> get_visual_humor_embed c <> "".
Proof.
  unfold status_classes. rewrite !elem_of_cons, elem_of_nil.
  intros [->|[->|[->|[->|[->|[->|[->|[]]]]]]]]; vm_compute; discriminate.
Qed.

Lemma embed_unrecognized (c : string) :
  c ∉ status_classes -> get_visual_humor_embed c = default_embed.
Proof.
  unfold status_classes. rewrite !not_elem_of_cons. intros (?&?&?&?&?&?&?&_).
  unfold get_visual_humor_embed, embed_map. simpl list_to_map.
  rewrite !lookup_insert_ne by congruence. rewrite lookup_empty. reflexivity.
Qed.

(** The category set is the set of keys of the table. *)
Lemma embed_map_keys (c : string) :
  c ∈ status_classes <-> is_Some (embed_map !! c).
Proof.
  split.
  - unfold status_classes. rewrite !elem_of_cons, elem_of_nil.
    intros [->|[->|[->|[->|[->|[->|[->|[]]]]]]]]; eexists; reflexivity.
  - intros [v Hv]. destruct (decide (c ∈ status_classes)) as [Hc|Hc]; [exact Hc|].
    exfalso. revert Hc Hv. unfold status_classes. rewrite !not_elem_of_cons.
    intros (?&?&?&?&?&?&?&_). unfold embed_map. simpl list_to_map.
    rewrite !lookup_insert_ne by congruence. rewrite lookup_empty. discriminate.
Qed.

Lemma default_embed_nonempty : default_embed <> "".
Proof. vm_compute. discriminate. Qed.

Lemma embed_nonempty (c : string) : get_visual_humor_embed c <> "".
Proof.
  destruct (decide (c ∈ status_classes)) as [Hc|Hc].
  - apply embed_enumerated, Hc.
  - rewrite (embed_unrecognized c Hc). apply default_embed_nonempty.
Qed.

(** The "N/A" of line 135 is never taken: after the [try] statement
    [overall_index_change] is never [None]. *)
Lemma percent_branch_not_taken (k : string) (sg : string -> fetch_outcome) :
  is_None (overall_index_change (after_try k sg)) = false.
Proof.
  assert (Hpc : forall d, is_None (percent_change d) = false).
  { intros d. unfold percent_change.
    destruct (default VNone (d !! "dp")); reflexivity. }
  destruct (sg (quote_url k)) as [e|v] eqn:H.
  - destruct (after_try_fetch_raises _ _ _ H) as (? & ? & _ & _ & ->). reflexivity.
  - assert (Hv : (exists d, v = VDict d) \/ (forall d, v <> VDict d)).
    { destruct v; try (right; intros ? [=]; fail). left; eauto. }
    destruct Hv as [[d ->]|Hv].
    + destruct (format_2f (percent_change d)) as [s|e] eqn:Hf.
      * destruct (after_try_classified _ _ _ _ H Hf) as (n & ? & ? & ? & _ & ->).
        apply Hpc.
      * destruct (after_try_unformattable _ _ _ _ H Hf) as (? & ? & _ & ->).
        apply Hpc.
    + destruct (after_try_not_dict _ _ _ H Hv) as (? & ? & _ & ->). reflexivity.
Qed.

(** C6. Every report [get_market_data] returns has a [status_class] in the
    category set and carries the embed code of that class, which is not
    empty; [get_visual_humor_embed] gives a non-empty string for every
    class of the set and the non-empty default for any other string. *)
Theorem report_class_and_embed :
  (forall (k : string) (sg : string -> fetch_outcome) (now : string)
          (r : gmap string pyval),
      get_market_data k sg now = Ok r ->
      exists c,
        r !! "status_class" = Some (VStr c) /\
        c ∈ status_classes /\
        r !! "giphy_embed_code" = Some (VStr (get_visual_humor_embed c)) /\
        get_visual_humor_embed c <> "") /\
  (forall c, c ∈ status_classes -> get_visual_humor_embed c <> "") /\
  (forall c, c ∉ status_classes -> get_visual_humor_embed c = default_embed) /\
  default_embed <> "".
Proof.
  split; [|split; [|split]].
  - intros k sg now r Hr. rewrite get_market_data_eq in Hr.
    destruct (percent_field _); [|discriminate].
    destruct (price_field _); [|discriminate].
    injection Hr as <-. exists (status_class (after_try k sg)).
    repeat split; try reflexivity.
    + apply after_try_enumerated.
    + apply embed_nonempty.
  - apply embed_enumerated.
  - apply embed_unrecognized.
  - apply default_embed_nonempty.
Qed.

Lemma report_class_and_embed_witness :
  exists c,
    timeout_example !! "status_class" = Some (VStr c) /\
    c ∈ status_classes /\
    timeout_example !! "giphy_embed_code" = Some (VStr (get_visual_humor_embed c)) /\
    get_visual_humor_embed c <> "".
Proof.
  apply (proj1 report_class_and_embed "key" times_out "2025-04-07 16:00:00 ").
  reflexivity.
Defined.

(** ** Rendering and the process *)

Lemma generate_html_run (h : host) (data : gmap string pyval)
    (files : gmap string string) :
  generate_html h data files =
    let path := path_join (SCRIPT_DIR h) OUTPUT_HTML_FILE in
    match get_template h files (TEMPLATE_DIR h) HTML_TEMPLATE_FILE with
    | Raise _ => (Ok false, files)
    | Ok tpl =>
        match tpl data with
        | Raise _ => (Ok false, files)
        | Ok text =>
            match open_raises h path with
            | Some _ => (Ok false, files)
            | None =>
                match write_raises h path with
                | Some (_, n) => (Ok false, <[path := substring 0 n text]> files)
                | None => (Ok true, <[path := text]> files)
                end
            end
        end
    end.
Proof.
  unfold generate_html, load_template, open_w, write. run_M.
  destruct (get_template h files (TEMPLATE_DIR h) HTML_TEMPLATE_FILE) as [tpl|];
    [|reflexivity].
  destruct (tpl data) as [text|]; [|reflexivity].
  destruct (open_raises h _); [reflexivity|].
  destruct (write_raises h _) as [[e n]|]; rewrite insert_insert_eq; reflexivity.
Qed.

Lemma generate_html_total (h : host) (data : gmap string pyval)
    (files : gmap string string) :
  exists b files', generate_html h data files = (Ok b, files').
Proof.
  rewrite generate_html_run. cbv zeta.
  repeat match goal with |- context [match ?x with _ => _ end] => destruct x end;
    eauto.
Qed.


Lemma main_falsy (w : world) :
  falsy (environ_FINANCIAL_API_KEY w) = true ->
  main w = Outcome 1 [] (disk w).
Proof. intros H. unfold main. rewrite H. reflexivity. Qed.

Lemma falsy_spec (o : option string) :
  falsy o = true <-> o = None \/ o = Some "".
Proof.
  destruct o as [s|]; simpl.
  - rewrite String.eqb_eq. split; [intros ->; auto | intros [[=]|[= ->]]; reflexivity].
  - split; auto.
Qed.

Lemma main_fetches (w : world) (k : string) :
  environ_FINANCIAL_API_KEY w = Some k -> k <> "" ->
  main w =
    match get_market_data k (session_get w) (now w) with
    | Raise _ => Outcome 1 [quote_url k] (disk w)
    | Ok market_data =>
        Outcome 0 [quote_url k] (snd (generate_html (machine w) market_data (disk w)))
    end.
Proof.
  intros Hk Hne. unfold main. rewrite Hk. simpl.
  destruct (String.eqb_spec k "") as [->|_]; [congruence|].
  destruct (get_market_data k (session_get w) (now w)) as [r|e]; [|reflexivity].
  destruct (generate_html_total (machine w) r (disk w)) as (b & files' & ->).
  reflexivity.
Qed.

(** C9, as the code has it. With the credential absent or empty the
    process exits with 1 and no request is made; with a non-empty
    credential and a report returned by [get_market_data] it exits with 0,
    whatever the report and whatever [generate_html] returns. *)
Theorem exit_status (w : world) :
  (environ_FINANCIAL_API_KEY w = None \/ environ_FINANCIAL_API_KEY w = Some "" ->
   exit_code (main w) = 1 /\ requests (main w) = []) /\
  (forall k r,
     environ_FINANCIAL_API_KEY w = Some k -> k <> "" ->
     get_market_data k (session_get w) (now w) = Ok r ->
     exit_code (main w) = 0 /\ requests (main w) = [quote_url k]).
Proof.
  split.
  - intros H. rewrite main_falsy by (apply falsy_spec; exact H). auto.
  - intros k r Hk Hne Hr. rewrite (main_fetches w k Hk Hne), Hr. auto.
Qed.

Lemma exit_status_witness :
  (exit_code (main empty_key) = 1 /\ requests (main empty_key) = []) /\
  (exit_code (main timeout_no_template) = 0 /\
   requests (main timeout_no_template) =
     ["https://finnhub.io/api/v1/quote?symbol=SPY&token=key"]).
Proof.
  split.
  - apply (proj1 (exit_status empty_key)). right. reflexivity.
  - apply (proj2 (exit_status timeout_no_template) "key" timeout_example).
    + reflexivity.
    + discriminate.
    + reflexivity.
Defined.

(** C9, as stated, fails: a credential that is set but empty is not absent,
    and the process still exits with 1 without fetching. *)
Lemma empty_credential_exits_1 :
  environ_FINANCIAL_API_KEY empty_key <> None /\
  exit_code (main empty_key) = 1 /\
  exit_code (main empty_key) <> 0 /\
  requests (main empty_key) = [].
Proof. repeat split; try reflexivity; discriminate. Qed.

(** An exception that leaves [get_market_data] ends the process with 1. *)
Lemma uncaught_exception_exits_1 (w : world) (k : string) (e : exn) :
  environ_FINANCIAL_API_KEY w = Some k -> k <> "" ->
  get_market_data k (session_get w) (now w) = Raise e ->
  exit_code (main w) = 1.
Proof. intros Hk Hne He. rewrite (main_fetches w k Hk Hne), He. reflexivity. Qed.

(** ** Two runs *)

Lemma report_dict_time (st : locals) (pct prc t1 t2 : string) :
  <["generation_time" := VStr t2]> (report_dict st pct prc t1) =
  report_dict st pct prc t2.
Proof.
  reflexivity.
Qed.

Lemma get_market_data_time (k : string) (sg : string -> fetch_outcome) (t1 t2 : string) :
  match get_market_data k sg t1, get_market_data k sg t2 with
  | Ok r1, Ok r2 => r2 = <["generation_time" := VStr t2]> r1
  | Raise e1, Raise e2 => e1 = e2
  | _, _ => False
  end.
Proof.
  rewrite !get_market_data_eq.
  destruct (percent_field _); [|reflexivity].
  destruct (price_field _); [|reflexivity].
  symmetry. apply report_dict_time.
Qed.

Lemma get_market_data_stamp (k : string) (sg : string -> fetch_outcome)
    (now : string) (r : gmap string pyval) :
  get_market_data k sg now = Ok r -> <["generation_time" := VStr now]> r = r.
Proof.
  rewrite get_market_data_eq.
  destruct (percent_field _); [|discriminate].
  destruct (price_field _); [|discriminate].
  intros [= <-]. apply report_dict_time.
Qed.

(** The template and the page are two files. *)
Lemma append_cancel (a x y : string) : a +:+ x = a +:+ y -> x = y.
Proof.
  induction a as [|c a IH]; cbn [append]; intros H; [exact H|].
  injection H as H. exact (IH H).
Qed.

Lemma template_is_not_the_page (h : host) : template_path h <> output_path h.
Proof.
  unfold template_path, output_path, TEMPLATE_DIR, path_join.
  change (starts_with_slash HTML_TEMPLATE_FILE) with false.
  change (starts_with_slash OUTPUT_HTML_FILE) with false. cbv iota.
  destruct (String.eqb (SCRIPT_DIR h) "" || ends_with_slash (SCRIPT_DIR h))%bool;
    intros H; apply append_cancel in H; try apply append_cancel in H; discriminate H.
Qed.

(** The loader only looks at the template file. *)
Lemma get_template_same_file (h : host) (files files' : gmap string string) :
  files !! template_path h = files' !! template_path h ->
  get_template h files (TEMPLATE_DIR h) HTML_TEMPLATE_FILE =
  get_template h files' (TEMPLATE_DIR h) HTML_TEMPLATE_FILE.
Proof.
  unfold get_template, template_path. intros ->. reflexivity.
Qed.

Lemma get_template_after_page (h : host) (files : gmap string string) (text : string) :
  get_template h (<[output_path h := text]> files) (TEMPLATE_DIR h) HTML_TEMPLATE_FILE =
  get_template h files (TEMPLATE_DIR h) HTML_TEMPLATE_FILE.
Proof.
  apply get_template_same_file. apply lookup_insert_ne.
  intros H. apply (template_is_not_the_page h). symmetry. exact H.
Qed.

Lemma get_template_after_run (h : host) (data : gmap string pyval)
    (files : gmap string string) :
  get_template h (snd (generate_html h data files)) (TEMPLATE_DIR h) HTML_TEMPLATE_FILE =
  get_template h files (TEMPLATE_DIR h) HTML_TEMPLATE_FILE.
Proof.
  rewrite generate_html_run. cbv zeta. fold (output_path h).
  destruct (get_template h files (TEMPLATE_DIR h) HTML_TEMPLATE_FILE) as [tpl|] eqn:Ht;
    [|exact Ht].
  destruct (tpl data) as [text|]; [|exact Ht].
  destruct (open_raises h _); [exact Ht|].
  destruct (write_raises h _) as [[e n]|]; simpl;
    rewrite get_template_after_page; exact Ht.
Qed.

Lemma generate_html_again (h : host) (r1 r2 : gmap string pyval)
    (files : gmap string string) :
  (forall tpl, get_template h files (TEMPLATE_DIR h) HTML_TEMPLATE_FILE = Ok tpl ->
               tpl r2 = tpl r1) ->
  generate_html h r2 (snd (generate_html h r1 files)) = generate_html h r1 files.
Proof.
  intros Hsame. rewrite (generate_html_run h r2), get_template_after_run.
  rewrite !generate_html_run. cbv zeta.
  destruct (get_template h files (TEMPLATE_DIR h) HTML_TEMPLATE_FILE) as [tpl|];
    [|reflexivity].
  rewrite (Hsame tpl eq_refl).
  destruct (tpl r1) as [text|]; [|reflexivity].
  destruct (open_raises h _); [reflexivity|].
  destruct (write_raises h _) as [[e n]|]; simpl; rewrite insert_insert_eq; reflexivity.
Qed.

(** A run in which nothing fails. *)
Lemma main_page (w : world) (k : string) (r : gmap string pyval)
    (tpl : template) (text : string) :
  environ_FINANCIAL_API_KEY w = Some k -> k <> "" ->
  get_market_data k (session_get w) (now w) = Ok r ->
  get_template (machine w) (disk w) (TEMPLATE_DIR (machine w)) HTML_TEMPLATE_FILE = Ok tpl ->
  tpl r = Ok text ->
  open_raises (machine w) (output_path (machine w)) = None ->
  write_raises (machine w) (output_path (machine w)) = None ->
  main w = Outcome 0 [quote_url k] (<[output_path (machine w) := text]> (disk w)).
Proof.
  intros Hk Hne Hr Ht Hx Ho Hw.
  rewrite (main_fetches w k Hk Hne), Hr, generate_html_run. cbv zeta.
  fold (output_path (machine w)). rewrite Ht, Hx, Ho, Hw. reflexivity.
Qed.

Lemma two_pages (w : world) (t2 : string) (k : string) (r1 : gmap string pyval)
    (tpl : template) (text1 text2 : string) :
  environ_FINANCIAL_API_KEY w = Some k -> k <> "" ->
  get_market_data k (session_get w) (now w) = Ok r1 ->
  get_template (machine w) (disk w) (TEMPLATE_DIR (machine w)) HTML_TEMPLATE_FILE = Ok tpl ->
  tpl r1 = Ok text1 ->
  tpl (<["generation_time" := VStr t2]> r1) = Ok text2 ->
  open_raises (machine w) (output_path (machine w)) = None ->
  write_raises (machine w) (output_path (machine w)) = None ->
  disk_after (main w) = <[output_path (machine w) := text1]> (disk w) /\
  disk_after (main (rerun w t2)) = <[output_path (machine w) := text2]> (disk w).
Proof.
  intros Hk Hne Hr Ht H1 H2 Ho Hw.
  pose proof (main_page w k r1 tpl text1 Hk Hne Hr Ht H1 Ho Hw) as Hm.
  split; [rewrite Hm; reflexivity|].
  pose proof (get_market_data_time k (session_get w) (now w) t2) as Hrel.
  rewrite Hr in Hrel.
  destruct (get_market_data k (session_get w) t2) as [r2|] eqn:Hr2; [|contradiction].
  subst r2.
  rewrite (main_page (rerun w t2) k (<["generation_time" := VStr t2]> r1) tpl text2);
    simpl; auto.
  - rewrite Hm. simpl. apply insert_insert_eq.
  - rewrite Hm. simpl. rewrite get_template_after_page. exact Ht.
Qed.

(** C10. Two runs on the same machine with the same credential and the
    same network answers, the second at another time and over the files the
    first left.  The two reports are equal in every field but
    [generation_time] (or the two runs raise the same exception); the exit
    status and the request are the same; the files are byte for byte the
    same whenever the two time stamps are equal or the template on disk does
    not show the time stamp.  When nothing fails, the page of each run is
    the rendering by the same template of its report, the second report
    being the first with the new time stamp; so for a template that renders
    the report as a text, the time stamp, and a text, the two pages are that
    same text around the two stamps: byte for byte the same but for the
    stamp. *)
Theorem two_runs (w : world) (t2 : string) :
  (forall k,
     match get_market_data k (session_get w) (now w),
           get_market_data k (session_get w) t2 with
     | Ok r1, Ok r2 => r2 = <["generation_time" := VStr t2]> r1
     | Raise e1, Raise e2 => e1 = e2
     | _, _ => False
     end) /\
  exit_code (main (rerun w t2)) = exit_code (main w) /\
  requests (main (rerun w t2)) = requests (main w) /\
  (now w = t2 \/ ignores_generation_time (machine w) (disk w) ->
   disk_after (main (rerun w t2)) = disk_after (main w)) /\
  (forall k r1 tpl text1 text2,
     environ_FINANCIAL_API_KEY w = Some k -> k <> "" ->
     get_market_data k (session_get w) (now w) = Ok r1 ->
     get_template (machine w) (disk w) (TEMPLATE_DIR (machine w)) HTML_TEMPLATE_FILE
       = Ok tpl ->
     tpl r1 = Ok text1 ->
     tpl (<["generation_time" := VStr t2]> r1) = Ok text2 ->
     open_raises (machine w) (output_path (machine w)) = None ->
     write_raises (machine w) (output_path (machine w)) = None ->
     disk_after (main w) = <[output_path (machine w) := text1]> (disk w) /\
     disk_after (main (rerun w t2)) = <[output_path (machine w) := text2]> (disk w)) /\
  (forall k r1 tpl pre post,
     environ_FINANCIAL_API_KEY w = Some k -> k <> "" ->
     get_market_data k (session_get w) (now w) = Ok r1 ->
     get_template (machine w) (disk w) (TEMPLATE_DIR (machine w)) HTML_TEMPLATE_FILE
       = Ok tpl ->
     (forall t, tpl (<["generation_time" := VStr t]> r1) = Ok (pre +:+ t +:+ post)) ->
     open_raises (machine w) (output_path (machine w)) = None ->
     write_raises (machine w) (output_path (machine w)) = None ->
     disk_after (main w) =
       <[output_path (machine w) := pre +:+ now w +:+ post]> (disk w) /\
     disk_after (main (rerun w t2)) =
       <[output_path (machine w) := pre +:+ t2 +:+ post]> (disk w)).
Proof.
  split; [intros k; apply get_market_data_time|].
  assert (Hpages : forall k r1 tpl text1 text2,
     environ_FINANCIAL_API_KEY w = Some k -> k <> "" ->
     get_market_data k (session_get w) (now w) = Ok r1 ->
     get_template (machine w) (disk w) (TEMPLATE_DIR (machine w)) HTML_TEMPLATE_FILE
       = Ok tpl ->
     tpl r1 = Ok text1 ->
     tpl (<["generation_time" := VStr t2]> r1) = Ok text2 ->
     open_raises (machine w) (output_path (machine w)) = None ->
     write_raises (machine w) (output_path (machine w)) = None ->
     disk_after (main w) = <[output_path (machine w) := text1]> (disk w) /\
     disk_after (main (rerun w t2)) = <[output_path (machine w) := text2]> (disk w))
    by (intros; eapply two_pages; eauto).
  assert (Hstamp : forall k r1 tpl pre post,
     environ_FINANCIAL_API_KEY w = Some k -> k <> "" ->
     get_market_data k (session_get w) (now w) = Ok r1 ->
     get_template (machine w) (disk w) (TEMPLATE_DIR (machine w)) HTML_TEMPLATE_FILE
       = Ok tpl ->
     (forall t, tpl (<["generation_time" := VStr t]> r1) = Ok (pre +:+ t +:+ post)) ->
     open_raises (machine w) (output_path (machine w)) = None ->
     write_raises (machine w) (output_path (machine w)) = None ->
     disk_after (main w) =
       <[output_path (machine w) := pre +:+ now w +:+ post]> (disk w) /\
     disk_after (main (rerun w t2)) =
       <[output_path (machine w) := pre +:+ t2 +:+ post]> (disk w)).
  { intros k r1 tpl pre post Hk Hne Hr Ht Hshow Ho Hw.
    apply (Hpages k r1 tpl); auto.
    rewrite <- (get_market_data_stamp _ _ _ _ Hr). apply Hshow. }
  cut (exit_code (main (rerun w t2)) = exit_code (main w) /\
       requests (main (rerun w t2)) = requests (main w) /\
       (now w = t2 \/ ignores_generation_time (machine w) (disk w) ->
        disk_after (main (rerun w t2)) = disk_after (main w))).
  { intros (Hexit & Hreq & Hdisk).
    split; [exact Hexit|]. split; [exact Hreq|]. split; [exact Hdisk|].
    split; [exact Hpages | exact Hstamp]. }
  clear Hpages Hstamp.
  destruct (falsy (environ_FINANCIAL_API_KEY w)) eqn:Hf.
  { rewrite (main_falsy w Hf), (main_falsy (rerun w t2) Hf). simpl.
    rewrite (main_falsy w Hf). auto. }
  destruct (environ_FINANCIAL_API_KEY w) as [k|] eqn:Hk; [|discriminate Hf].
  assert (Hne : k <> "") by (intros ->; discriminate Hf).
  rewrite (main_fetches (rerun w t2) k Hk Hne), (main_fetches w k Hk Hne). simpl.
  rewrite (main_fetches w k Hk Hne).
  pose proof (get_market_data_time k (session_get w) (now w) t2) as Ht.
  destruct (get_market_data k (session_get w) (now w)) as [r1|e1] eqn:H1,
           (get_market_data k (session_get w) t2) as [r2|e2] eqn:H2;
    try contradiction; simpl.
  - repeat split; auto.
    intros Hsame. rewrite generate_html_again; [reflexivity|].
    intros tpl Htpl. destruct Hsame as [Heq|Hign].
    + rewrite <- Heq, H1 in H2. injection H2 as ->. reflexivity.
    + rewrite Ht. apply (Hign tpl Htpl).
  - repeat split; auto.
Qed.

Lemma class_price_stamp_shows (r : gmap string pyval) (c p t : string) :
  r !! "status_class" = Some (VStr c) ->
  r !! "index_current_price" = Some (VStr p) ->
  class_price_stamp (<["generation_time" := VStr t]> r) =
    Ok (("<h1 class=" +:+ c +:+ ">" +:+ p +:+ "</h1><p>") +:+ t +:+ "</p>").
Proof.
  intros Hc Hp. unfold class_price_stamp.
  rewrite lookup_insert_eq. rewrite !lookup_insert_ne by discriminate.
  rewrite Hc, Hp. reflexivity.
Qed.

Lemma two_runs_witness :
  disk_after (main (rerun good_day "2025-04-07 16:05:00 ")) = disk_after (main good_day) /\
  (disk_after (main good_day_stamped) =
     <["/srv/site/index.html" :=
         "<h1 class=no>450.12</h1><p>" +:+ "2025-04-07 16:00:00 " +:+ "</p>"]> stamped_site /\
   disk_after (main (rerun good_day_stamped "2025-04-07 16:05:00 ")) =
     <["/srv/site/index.html" :=
         "<h1 class=no>450.12</h1><p>" +:+ "2025-04-07 16:05:00 " +:+ "</p>"]> stamped_site).
Proof.
  split.
  - apply (two_runs good_day "2025-04-07 16:05:00 ").
    right. intros tpl Htpl data v.
    change (Ok class_and_price = Ok tpl) in Htpl. injection Htpl as <-.
    unfold class_and_price. rewrite !lookup_insert_ne by discriminate. reflexivity.
  - destruct (quote_body_report "key" "2025-04-07 16:00:00 " (VFloat double_3_5)
                (VFloat double_450_1234) "3.50" "450.12" (float_xnum double_3_5)
                eq_refl eq_refl eq_refl)
      as (r & Hr & Hc & _ & Hp & _).
    apply (proj2 (proj2 (proj2 (proj2 (proj2
             (two_runs good_day_stamped "2025-04-07 16:05:00 ")))))
             "key" r class_price_stamp "<h1 class=no>450.12</h1><p>" "</p>").
    + reflexivity.
    + discriminate.
    + exact Hr.
    + reflexivity.
    + intros t. exact (class_price_stamp_shows r "no" "450.12" t Hc Hp).
    + reflexivity.
    + reflexivity.
Defined.

(** * Further properties *)

(** ** The branches, in full *)

Lemma determine_status_full (st : locals) (n : xnum) (s : string) :
  num_of (overall_index_change st) = Some n ->
  format_2f (overall_index_change st) = Ok s ->
  determine_status st =
    (Ok tt, Locals (overall_index_change st) (current_price st) (error_msg st)
                   (label_of (category_of n)) (category_of n)
                   (subtitle_of (category_of n) s) (arrow_of (category_of n))).
Proof.
  destruct st as [x p em t c sub ar]. simpl. intros Hn Hs.
  unfold determine_status, category_of. run_M. rewrite Hn, Hs.
  repeat match goal with
         | |- context [if ?b then _ else _] => destruct b
         end;
    reflexivity.
Qed.

Lemma except_handlers_full (e : exn) (st : locals) :
  exists msg,
    msg <> "" /\
    except_handlers e st =
      (Ok tt, Locals (overall_index_change st) (current_price st) (Some msg)
                     "ERROR" "error"
                     (if transport_error e then "Could not fetch market data."
                      else "Could not determine market status.")
                     "?").
Proof.
  destruct st as [x p em t c sub ar].
  destruct e as [m|m [d|]|m|m|m|m|m|m];
    (eexists; split; [|unfold except_handlers; run_M; reflexivity]);
    unfold append; discriminate.
Qed.

(** Where the [try] statement stands for each kind of answer. *)
Lemma after_try_failed_early (k : string) (sg : string -> fetch_outcome) :
  (forall d, sg (quote_url k) <> FetchJson (VDict d)) ->
  exists e msg,
    msg <> "" /\
    (forall e', sg (quote_url k) = FetchRaises e' -> e = e') /\
    (forall v, sg (quote_url k) = FetchJson v ->
               e = AttributeError ("'" +:+ type_name v +:+ "' object has no attribute 'get'")) /\
    after_try k sg =
      Locals (VInt 0) VNone (Some msg) "ERROR" "error"
             (if transport_error e then "Could not fetch market data."
              else "Could not determine market status.")
             "?".
Proof.
  intros Hnd. unfold after_try, try_except.
  destruct (sg (quote_url k)) as [e|v] eqn:H.
  - rewrite (try_body_fetch_raises _ _ _ H).
    destruct (except_handlers_full e init_locals) as (msg & Hm & ->).
    exists e, msg. repeat split; auto; congruence.
  - assert (Hv : forall d, v <> VDict d) by (intros d ->; apply (Hnd d); reflexivity).
    assert (Ht : try_body k sg init_locals =
                 (Raise (AttributeError ("'" +:+ type_name v
                                         +:+ "' object has no attribute 'get'")),
                  init_locals)).
    { unfold try_body. run_M. rewrite H.
      destruct v; try reflexivity. exfalso. eapply Hv. reflexivity. }
    rewrite Ht.
    destruct (except_handlers_full
                (AttributeError ("'" +:+ type_name v +:+ "' object has no attribute 'get'"))
                init_locals) as (msg & Hm & ->).
    eexists. exists msg. repeat split; auto; congruence.
Qed.

Lemma after_try_classified_full (k : string) (sg : string -> fetch_outcome)
    (d : gmap string pyval) (s : string) :
  sg (quote_url k) = FetchJson (VDict d) ->
  format_2f (percent_change d) = Ok s ->
  exists n,
    num_of (percent_change d) = Some n /\
    after_try k sg =
      Locals (percent_change d) (price d) (advisory d)
             (label_of (category_of n)) (category_of n)
             (subtitle_of (category_of n) s) (arrow_of (category_of n)).
Proof.
  intros H Hs. unfold after_try, try_except.
  rewrite (try_body_dict _ _ _ H), Hs.
  destruct (format_2f_numeric _ _ Hs) as [n Hn].
  rewrite (determine_status_full (at_line_56 d) n s Hn Hs).
  exists n. auto.
Qed.

Lemma percent_change_not_None (d : gmap string pyval) :
  is_None (percent_change d) = false.
Proof. unfold percent_change. destruct (default VNone (d !! "dp")); reflexivity. Qed.

Lemma percent_field_change (d : gmap string pyval) :
  percent_field (percent_change d) =
    match format_2f (percent_change d) with
    | Ok s => Ok (s +:+ "%")
    | Raise e => Raise e
    end.
Proof. unfold percent_field. rewrite percent_change_not_None. reflexivity. Qed.

Lemma answer_cases (o : fetch_outcome) :
  (exists d, o = FetchJson (VDict d)) \/ (forall d, o <> FetchJson (VDict d)).
Proof.
  destruct o as [e|v]; [right; discriminate|].
  destruct v; try (right; discriminate). left; eauto.
Qed.

(** ** When [get_market_data] returns and when it raises *)

(** X1. Whatever exception lines 43-45 raise, [get_market_data] returns a
    report: class "error", label "ERROR", arrow "?", the change shown as
    "0.00%", the price as "N/A", a non-empty message, and a subtitle that
    says "fetch" for the three [requests] classes and "determine" for any
    other exception. *)
Theorem fetch_exception_report (k : string) (sg : string -> fetch_outcome)
    (now : string) (e : exn) :
  sg (quote_url k) = FetchRaises e ->
  exists r msg,
    get_market_data k sg now = Ok r /\
    r !! "status_class" = Some (VStr "error") /\
    r !! "status_text" = Some (VStr "ERROR") /\
    r !! "status_arrow" = Some (VStr "?") /\
    r !! "subtitle" =
      Some (VStr (if transport_error e then "Could not fetch market data."
                  else "Could not determine market status.")) /\
    r !! "index_change_percent" = Some (VStr "0.00%") /\
    r !! "index_current_price" = Some (VStr "N/A") /\
    r !! "error_message" = Some (VStr msg) /\
    msg <> "".
Proof.
  intros H.
  destruct (after_try_failed_early k sg) as (e' & msg & Hm & He & _ & Hst).
  { intros d. rewrite H. discriminate. }
  rewrite (He e H) in Hst.
  eexists. exists msg. rewrite get_market_data_eq, Hst. simpl.
  split; [reflexivity|]. repeat split; auto.
Qed.

Lemma fetch_exception_report_witness :
  exists r msg,
    get_market_data "key" forbidden "2025-04-07 16:00:00 " = Ok r /\
    r !! "status_class" = Some (VStr "error") /\
    r !! "status_text" = Some (VStr "ERROR") /\
    r !! "status_arrow" = Some (VStr "?") /\
    r !! "subtitle" = Some (VStr "Could not fetch market data.") /\
    r !! "index_change_percent" = Some (VStr "0.00%") /\
    r !! "index_current_price" = Some (VStr "N/A") /\
    r !! "error_message" = Some (VStr msg) /\
    msg <> "".
Proof.
  apply (fetch_exception_report "key" forbidden "2025-04-07 16:00:00 "
           (HTTPError ("403 Client Error: Forbidden for url: " +:+ quote_url "key") None)).
  reflexivity.
Defined.

(** X2. A body that is valid JSON but not an object (an array, a string, a
    number, [null]) has no [get]: the report is an "error" report whose
    message names the type, with the "determine" subtitle. *)
Theorem non_object_body_report (k : string) (sg : string -> fetch_outcome)
    (now : string) (v : pyval) :
  sg (quote_url k) = FetchJson v ->
  (forall d, v <> VDict d) ->
  exists r,
    get_market_data k sg now = Ok r /\
    r !! "status_class" = Some (VStr "error") /\
    r !! "subtitle" = Some (VStr "Could not determine market status.") /\
    r !! "index_change_percent" = Some (VStr "0.00%") /\
    r !! "index_current_price" = Some (VStr "N/A") /\
    r !! "error_message" =
      Some (VStr ("An unexpected error occurred: '" +:+ type_name v
                  +:+ "' object has no attribute 'get'")).
Proof.
  intros H Hv.
  assert (Hst : after_try k sg =
                Locals (VInt 0) VNone
                  (Some ("An unexpected error occurred: '" +:+ type_name v
                         +:+ "' object has no attribute 'get'"))
                  "ERROR" "error" "Could not determine market status." "?").
  { unfold after_try, try_except, try_body. run_M. rewrite H.
    destruct v; try reflexivity. exfalso. eapply Hv. reflexivity. }
  eexists. rewrite get_market_data_eq, Hst. simpl.
  split; [reflexivity|]. repeat split; reflexivity.
Qed.

Lemma non_object_body_report_witness :
  exists r,
    get_market_data "key" (answers (VList [])) "2025-04-07 16:00:00 " = Ok r /\
    r !! "status_class" = Some (VStr "error") /\
    r !! "subtitle" = Some (VStr "Could not determine market status.") /\
    r !! "index_change_percent" = Some (VStr "0.00%") /\
    r !! "index_current_price" = Some (VStr "N/A") /\
    r !! "error_message" =
      Some (VStr "An unexpected error occurred: 'list' object has no attribute 'get'").
Proof.
  apply (non_object_body_report "key" (answers (VList [])) "2025-04-07 16:00:00 "
           (VList [])).
  - reflexivity.
  - discriminate.
Defined.

Lemma format_2f_raises (x : pyval) (e : exn) :
  format_2f x = Raise e ->
  (exists m, e = ValueError m) \/ (exists m, e = TypeError m) \/
  (exists m, e = OverflowError m).
Proof.
  unfold format_2f, float_of_int. intros H.
  destruct x as [| |z| | | |]; try discriminate H;
    try (injection H as <-; eauto; fail).
  destruct z as [|p|p]; try discriminate H;
    (destruct (Z.log2 (Z.pos p) + 1 <=? 53); [discriminate H|];
     match type of H with
     | context [N.leb ?a ?b] => destruct (N.leb a b)
     end; [injection H as <-; eauto | discriminate H]).
Qed.

(** The exceptions that get past the [try] statement. *)
Lemma get_market_data_raises (k : string) (sg : string -> fetch_outcome)
    (now : string) (e : exn) :
  get_market_data k sg now = Raise e <->
  exists d,
    sg (quote_url k) = FetchJson (VDict d) /\
    (format_2f (percent_change d) = Raise e \/
     (exists s, format_2f (percent_change d) = Ok s) /\
     price_field (price d) = Raise e).
Proof.
  rewrite get_market_data_eq.
  destruct (answer_cases (sg (quote_url k))) as [[d Hd]|Hnd].
  - destruct (format_2f (percent_change d)) as [s|e'] eqn:Hf.
    + destruct (after_try_classified_full k sg d s Hd Hf) as (n & _ & ->). simpl.
      rewrite percent_field_change, Hf.
      split.
      * intros Hr. exists d. split; [exact Hd|]. right. split; [eauto|].
        destruct (price_field (price d)) as [?|e0]; [discriminate Hr|].
        injection Hr as ->. reflexivity.
      * intros (d' & Hd' & Hc). rewrite Hd in Hd'. injection Hd' as <-.
        destruct Hc as [Hc|[_ Hc]]; [congruence|]. rewrite Hc. reflexivity.
    + destruct (after_try_unformattable k sg d e' Hd Hf) as (? & ? & _ & ->). simpl.
      rewrite percent_field_change, Hf.
      split.
      * intros Hr. exists d. split; [exact Hd|]. left. injection Hr as <-. exact Hf.
      * intros (d' & Hd' & Hc). rewrite Hd in Hd'. injection Hd' as <-.
        destruct Hc as [Hc|[[s Hs] _]]; congruence.
  - destruct (after_try_failed_early k sg Hnd) as (? & ? & _ & _ & _ & ->). simpl.
    split; [discriminate|]. intros (d & Hd & _). exfalso. exact (Hnd d Hd).
Qed.

(** X3. [get_market_data] raises in exactly one situation: the body is an
    object and the percent change (or, that one being fine, the price) is a
    value ['.2f'] cannot format; the exception is the one the format raises,
    a [ValueError], [TypeError] or [OverflowError].  A failed request or a
    body that is not an object never makes it raise. *)
Theorem raises_iff_unformattable (k : string) (sg : string -> fetch_outcome)
    (now : string) (e : exn) :
  (get_market_data k sg now = Raise e <->
   exists d,
     sg (quote_url k) = FetchJson (VDict d) /\
     (format_2f (percent_change d) = Raise e \/
      (exists s, format_2f (percent_change d) = Ok s) /\
      price_field (price d) = Raise e)) /\
  (get_market_data k sg now = Raise e ->
   (exists m, e = ValueError m) \/ (exists m, e = TypeError m) \/
   (exists m, e = OverflowError m)).
Proof.
  split; [apply get_market_data_raises|].
  intros Hr. apply get_market_data_raises in Hr.
  destruct Hr as (d & _ & [Hc|[_ Hc]]).
  - exact (format_2f_raises _ _ Hc).
  - unfold price_field in Hc. destruct (is_None (price d)); [discriminate Hc|].
    exact (format_2f_raises _ _ Hc).
Qed.

Lemma raises_iff_unformattable_witness :
  get_market_data "key" (answers (quote_body (VInt 1) (VStr "450.12")))
                  "2025-04-07 16:00:00 " =
    Raise (ValueError "Unknown format code 'f' for object of type 'str'").
Proof.
  apply (proj1 (raises_iff_unformattable "key" _ _ _)).
  exists {[ "dp" := VInt 1; "c" := VStr "450.12" ]}.
  split; [reflexivity|]. right. split; [exists "1.00"; reflexivity | reflexivity].
Defined.

(** ** What a report shows *)

(** The report of a quote that was classified. *)
Lemma classified_report (k : string) (sg : string -> fetch_outcome) (now : string)
    (d : gmap string pyval) (s prc : string) :
  sg (quote_url k) = FetchJson (VDict d) ->
  format_2f (percent_change d) = Ok s ->
  price_field (price d) = Ok prc ->
  exists n,
    num_of (percent_change d) = Some n /\
    get_market_data k sg now =
      Ok (report_dict
            (Locals (percent_change d) (price d) (advisory d)
                    (label_of (category_of n)) (category_of n)
                    (subtitle_of (category_of n) s) (arrow_of (category_of n)))
            (s +:+ "%") prc now).
Proof.
  intros H Hs Hp.
  destruct (after_try_classified_full k sg d s H Hs) as (n & Hn & Hst).
  exists n. split; [exact Hn|].
  rewrite get_market_data_eq, Hst. simpl.
  rewrite percent_field_change, Hs, Hp. reflexivity.
Qed.

(** The report of a run whose [try] failed before line 48. *)
Lemma early_failure_report (k : string) (sg : string -> fetch_outcome) (now : string) :
  (forall d, sg (quote_url k) <> FetchJson (VDict d)) ->
  exists msg sub,
    msg <> "" /\
    get_market_data k sg now =
      Ok (report_dict (Locals (VInt 0) VNone (Some msg) "ERROR" "error" sub "?")
                      "0.00%" "N/A" now).
Proof.
  intros Hnd.
  destruct (after_try_failed_early k sg Hnd) as (e & msg & Hm & _ & _ & Hst).
  exists msg. eexists. split; [exact Hm|].
  rewrite get_market_data_eq, Hst. reflexivity.
Qed.

(** Every returned report is one of the two. *)
Lemma report_cases (k : string) (sg : string -> fetch_outcome) (now : string)
    (r : gmap string pyval) :
  get_market_data k sg now = Ok r ->
  (exists d s prc n,
     sg (quote_url k) = FetchJson (VDict d) /\
     format_2f (percent_change d) = Ok s /\
     price_field (price d) = Ok prc /\
     num_of (percent_change d) = Some n /\
     r = report_dict
           (Locals (percent_change d) (price d) (advisory d)
                   (label_of (category_of n)) (category_of n)
                   (subtitle_of (category_of n) s) (arrow_of (category_of n)))
           (s +:+ "%") prc now) \/
  ((forall d, sg (quote_url k) <> FetchJson (VDict d)) /\
   exists msg sub,
     msg <> "" /\
     r = report_dict (Locals (VInt 0) VNone (Some msg) "ERROR" "error" sub "?")
                     "0.00%" "N/A" now).
Proof.
  intros Hr.
  destruct (answer_cases (sg (quote_url k))) as [[d Hd]|Hnd].
  - left. destruct (format_2f (percent_change d)) as [s|e] eqn:Hf.
    + destruct (price_field (price d)) as [prc|e] eqn:Hp.
      * destruct (classified_report k sg now d s prc Hd Hf Hp) as (n & Hn & Hg).
        exists d, s, prc, n. rewrite Hg in Hr. injection Hr as <-. auto.
      * exfalso.
        assert (Hx : get_market_data k sg now = Raise e).
        { apply get_market_data_raises. exists d. eauto. }
        congruence.
    + exfalso.
      assert (Hx : get_market_data k sg now = Raise e).
      { apply get_market_data_raises. exists d. eauto. }
      congruence.
  - right. split; [exact Hnd|].
    destruct (early_failure_report k sg now Hnd) as (msg & sub & Hm & Hg).
    exists msg, sub. rewrite Hg in Hr. injection Hr as <-. auto.
Qed.

Lemma append_percent_not_NA (s : string) : s +:+ "%" <> "N/A".
Proof.
  destruct s as [|a [|b [|c [|d s]]]]; cbv [append]; discriminate.
Qed.

(** X4. The change shown in a report is always a formatted number followed
    by "%": whatever happened, [index_change_percent] is never "N/A"
    (the fallback of line 135 cannot be reached). *)
Theorem percent_is_never_NA (k : string) (sg : string -> fetch_outcome)
    (now : string) (r : gmap string pyval) :
  get_market_data k sg now = Ok r ->
  (exists s, r !! "index_change_percent" = Some (VStr (s +:+ "%"))) /\
  r !! "index_change_percent" <> Some (VStr "N/A").
Proof.
  intros Hr.
  assert (H : exists s, r !! "index_change_percent" = Some (VStr (s +:+ "%"))).
  { destruct (report_cases k sg now r Hr)
      as [(d & s & prc & n & _ & _ & _ & _ & ->)|(_ & msg & sub & _ & ->)].
    - exists s. reflexivity.
    - exists "0.00". reflexivity. }
  split; [exact H|]. destruct H as [s ->]. intros [=Hs].
  exact (append_percent_not_NA s Hs).
Qed.

Lemma percent_is_never_NA_witness :
  (exists s, timeout_example !! "index_change_percent" = Some (VStr (s +:+ "%"))) /\
  timeout_example !! "index_change_percent" <> Some (VStr "N/A").
Proof.
  apply (percent_is_never_NA "key" times_out "2025-04-07 16:00:00 ").
  reflexivity.
Defined.

(** X5. In every report the label and the arrow are the ones that go with
    the class: "YES!", "BLEEDING" and "WOBBLY" with a down arrow, "NOT YET!"
    and "CLIMBING" with an up arrow, "FLAT" with a bar, "ERROR" with "?".
    The initial "MAYBE?" never comes out. *)
Theorem label_and_arrow_follow_class (k : string) (sg : string -> fetch_outcome)
    (now : string) (r : gmap string pyval) :
  get_market_data k sg now = Ok r ->
  exists c,
    r !! "status_class" = Some (VStr c) /\
    r !! "status_text" = Some (VStr (label_of c)) /\
    r !! "status_arrow" = Some (VStr (arrow_of c)) /\
    c <> "maybe" /\ label_of c <> "MAYBE?".
Proof.
  intros Hr.
  destruct (report_cases k sg now r Hr)
    as [(d & s & prc & n & _ & _ & _ & _ & ->)|(_ & msg & sub & _ & ->)].
  - exists (category_of n). repeat split.
    + unfold category_of.
      repeat match goal with |- context [if ?b then _ else _] => destruct b end;
        discriminate.
    + unfold category_of.
      repeat match goal with |- context [if ?b then _ else _] => destruct b end;
        discriminate.
  - exists "error". repeat split; discriminate.
Qed.

Lemma label_and_arrow_follow_class_witness :
  exists c,
    timeout_example !! "status_class" = Some (VStr c) /\
    timeout_example !! "status_text" = Some (VStr (label_of c)) /\
    timeout_example !! "status_arrow" = Some (VStr (arrow_of c)) /\
    c <> "maybe" /\ label_of c <> "MAYBE?".
Proof.
  apply (label_and_arrow_follow_class "key" times_out "2025-04-07 16:00:00 ").
  reflexivity.
Defined.

(** X6. For a quote that is classified, the subtitle quotes the very figure
    of [index_change_percent], sign included, in the sentence of its class:
    a drop of 3 percent reads "down -3.00%". *)
Theorem subtitle_quotes_the_change (k : string) (sg : string -> fetch_outcome)
    (now : string) (d : gmap string pyval) (s : string) :
  sg (quote_url k) = FetchJson (VDict d) ->
  format_2f (percent_change d) = Ok s ->
  showable (price d) ->
  exists r c,
    get_market_data k sg now = Ok r /\
    r !! "status_class" = Some (VStr c) /\
    r !! "index_change_percent" = Some (VStr (s +:+ "%")) /\
    r !! "subtitle" = Some (VStr (subtitle_of c s)).
Proof.
  intros H Hs [prc Hp].
  destruct (classified_report k sg now d s prc H Hs Hp) as (n & _ & ->).
  eexists. exists (category_of n). split; [reflexivity|]. repeat split; reflexivity.
Qed.

Lemma subtitle_quotes_the_change_witness :
  exists r c,
    get_market_data "key" (answers (quote_body (VInt (-3)) (VFloat double_450_1234)))
                    "2025-04-07 16:00:00 " = Ok r /\
    r !! "status_class" = Some (VStr c) /\
    r !! "index_change_percent" = Some (VStr "-3.00%") /\
    r !! "subtitle" = Some (VStr (subtitle_of c "-3.00")).
Proof.
  apply (subtitle_quotes_the_change "key" _ _
           {[ "dp" := VInt (-3); "c" := VFloat double_450_1234 ]} "-3.00").
  - reflexivity.
  - reflexivity.
  - exists "450.12". reflexivity.
Defined.

(** ** The thresholds *)

Ltac spec_cases H :=
  destruct H as [[? ?]|[[? [? ?]]|[[? [? ?]]|[[? ?]|[[? [? ?]]|[? [? ?]]]]]]].

(** X7. The threshold chain is monotone: a larger change never gets a class
    nearer to the crash end of the order yes, bleeding, wobbly, sideways,
    climbing, no. *)
Theorem classification_monotone (st1 st2 : locals) (q1 q2 : Q) :
  num_of (overall_index_change st1) = Some (XFin q1) ->
  num_of (overall_index_change st2) = Some (XFin q2) ->
  (q1 <= q2)%Q ->
  rank (status_class (snd (determine_status st1))) <=
  rank (status_class (snd (determine_status st2))).
Proof.
  intros H1 H2 Hq.
  rewrite (determine_status_class _ _ H1), (determine_status_class _ _ H2).
  pose proof (proj2 (category_of_spec q1 _) eq_refl) as S1.
  pose proof (proj2 (category_of_spec q2 _) eq_refl) as S2.
  unfold spec_category, value_0_2 in S1, S2.
  spec_cases S1; spec_cases S2;
    match goal with
    | E1 : category_of (XFin q1) = _, E2 : category_of (XFin q2) = _ |- _ =>
        rewrite E1, E2
    end;
    first [ (cbv; discriminate) | exfalso; lra ].
Qed.

Lemma classification_monotone_witness :
  rank (status_class (snd (determine_status (at_line_56 {[ "dp" := VInt (-7) ]})))) <=
  rank (status_class (snd (determine_status (at_line_56 {[ "dp" := VInt 1 ]})))).
Proof.
  apply (classification_monotone _ _ (inject_Z (-7)) (inject_Z 1)).
  - reflexivity.
  - reflexivity.
  - discriminate.
Defined.

(** X8. For a classified quote with a finite change the arrow of the report
    points down exactly when the change is below -2, up exactly when it is
    above 0.2, and is the flat bar exactly in between. *)
Theorem arrow_follows_change (k : string) (sg : string -> fetch_outcome)
    (now : string) (d : gmap string pyval) (q : Q) (s : string) :
  sg (quote_url k) = FetchJson (VDict d) ->
  num_of (percent_change d) = Some (XFin q) ->
  format_2f (percent_change d) = Ok s ->
  showable (price d) ->
  exists r a,
    get_market_data k sg now = Ok r /\
    r !! "status_arrow" = Some (VStr a) /\
    (a = "▼" <-> q < -2)%Q /\
    (a = "▲" <-> value_0_2 < q)%Q /\
    (a = "▬" <-> -2 <= q /\ q <= value_0_2)%Q.
Proof.
  intros H Hn Hs [prc Hp].
  destruct (classified_report k sg now d s prc H Hs Hp) as (n & Hn' & ->).
  assert (n = XFin q) as -> by congruence.
  eexists. exists (arrow_of (category_of (XFin q))).
  split; [reflexivity|]. split; [reflexivity|].
  pose proof (proj2 (category_of_spec q _) eq_refl) as S.
  unfold spec_category in S. unfold value_0_2 in *.
  spec_cases S;
    match goal with E : category_of (XFin q) = _ |- _ => rewrite E end;
    (repeat split; intros;
     first [ reflexivity | lra | discriminate
           | match goal with H : _ /\ _ |- _ => destruct H end; exfalso; lra
           | exfalso; lra ]).
Qed.

Lemma arrow_follows_change_witness :
  exists r a,
    get_market_data "key" (answers (quote_body (VInt (-3)) (VFloat double_450_1234)))
                    "2025-04-07 16:00:00 " = Ok r /\
    r !! "status_arrow" = Some (VStr a) /\
    (a = "▼" <-> -3 < -2)%Q /\
    (a = "▲" <-> value_0_2 < -3)%Q /\
    (a = "▬" <-> -2 <= -3 /\ -3 <= value_0_2)%Q.
Proof.
  apply (arrow_follows_change "key" _ _
           {[ "dp" := VInt (-3); "c" := VFloat double_450_1234 ]} (-3)%Q "-3.00").
  - reflexivity.
  - reflexivity.
  - reflexivity.
  - exists "450.12". reflexivity.
Defined.

(** X9. The values that are not finite are classified too: every comparison
    with NaN is false, so NaN falls through to "sideways" and is shown as
    "nan%"; plus infinity is "no" and "inf%", minus infinity "yes" and
    "-inf%". *)
Theorem non_finite_change (k : string) (sg : string -> fetch_outcome)
    (now : string) (d : gmap string pyval) (f : spec_float) :
  sg (quote_url k) = FetchJson (VDict d) ->
  d !! "dp" = Some (VFloat f) ->
  showable (price d) ->
  exists r c p,
    get_market_data k sg now = Ok r /\
    r !! "status_class" = Some (VStr c) /\
    r !! "index_change_percent" = Some (VStr p) /\
    (f = S754_nan -> c = "sideways" /\ p = "nan%") /\
    (f = S754_infinity false -> c = "no" /\ p = "inf%") /\
    (f = S754_infinity true -> c = "yes" /\ p = "-inf%").
Proof.
  intros H Hd [prc Hp].
  destruct (percent_change_present d (VFloat f) (float_xnum f) Hd eq_refl) as [Hx _].
  assert (Hs : format_2f (percent_change d) = Ok (format_float_2f f))
    by (rewrite Hx; reflexivity).
  destruct (classified_report k sg now d _ prc H Hs Hp) as (n & Hn & ->).
  rewrite Hx in Hn. injection Hn as <-.
  eexists. exists (category_of (float_xnum f)), (format_float_2f f +:+ "%").
  split; [reflexivity|]. repeat split; subst f; reflexivity.
Qed.

Lemma non_finite_change_witness :
  exists r c p,
    get_market_data "key" (answers (quote_body (VFloat S754_nan) VNone))
                    "2025-04-07 16:00:00 " = Ok r /\
    r !! "status_class" = Some (VStr c) /\
    r !! "index_change_percent" = Some (VStr p) /\
    (S754_nan = S754_nan -> c = "sideways" /\ p = "nan%") /\
    (S754_nan = S754_infinity false -> c = "no" /\ p = "inf%") /\
    (S754_nan = S754_infinity true -> c = "yes" /\ p = "-inf%").
Proof.
  apply (non_finite_change "key" _ _ {[ "dp" := VFloat S754_nan; "c" := VNone ]}).
  - reflexivity.
  - reflexivity.
  - exists "N/A". reflexivity.
Defined.

(** ** Error reports and messages *)

Lemma category_of_not_error (n : xnum) : category_of n <> "error".
Proof.
  unfold category_of.
  repeat match goal with |- context [if ?b then _ else _] => destruct b end;
    discriminate.
Qed.

(** X11. A report has class "error" exactly when the request raised or the
    body was not an object; such a report always shows "0.00%" and "N/A"
    and carries a non-empty message.  A body that is an object never gives
    an "error" report: it is classified, or the function raises. *)
Theorem error_reports (k : string) (sg : string -> fetch_outcome)
    (now : string) (r : gmap string pyval) :
  get_market_data k sg now = Ok r ->
  (r !! "status_class" = Some (VStr "error") <->
   forall d, sg (quote_url k) <> FetchJson (VDict d)) /\
  (r !! "status_class" = Some (VStr "error") ->
   r !! "index_change_percent" = Some (VStr "0.00%") /\
   r !! "index_current_price" = Some (VStr "N/A") /\
   exists msg, r !! "error_message" = Some (VStr msg) /\ msg <> "").
Proof.
  intros Hr.
  destruct (report_cases k sg now r Hr)
    as [(d & s & prc & n & Hd & _ & _ & _ & ->)|(Hnd & msg & sub & Hm & ->)].
  - assert (Hc : report_dict
                   (Locals (percent_change d) (price d) (advisory d)
                      (label_of (category_of n)) (category_of n)
                      (subtitle_of (category_of n) s) (arrow_of (category_of n)))
                   (s +:+ "%") prc now !! "status_class"
                 = Some (VStr (category_of n))) by reflexivity.
    rewrite Hc. split.
    + split.
      * intros [=He]. exfalso. exact (category_of_not_error n He).
      * intros Hnd. exfalso. exact (Hnd d Hd).
    + intros [=He]. exfalso. exact (category_of_not_error n He).
  - split.
    + split; [intros _; exact Hnd | intros _; reflexivity].
    + intros _. repeat split. exists msg. split; [reflexivity | exact Hm].
Qed.

Lemma error_reports_witness :
  timeout_example !! "status_class" = Some (VStr "error") <->
  forall d, times_out (quote_url "key") <> FetchJson (VDict d).
Proof.
  apply (error_reports "key" times_out "2025-04-07 16:00:00 " timeout_example).
  reflexivity.
Defined.

(** X12. A report has no [error_message] exactly when the body was an
    object with a percent change in it that is not [null]. *)
Theorem error_message_absent (k : string) (sg : string -> fetch_outcome)
    (now : string) (r : gmap string pyval) :
  get_market_data k sg now = Ok r ->
  (r !! "error_message" = Some VNone <->
   exists d dp,
     sg (quote_url k) = FetchJson (VDict d) /\ d !! "dp" = Some dp /\ dp <> VNone).
Proof.
  intros Hr.
  destruct (report_cases k sg now r Hr)
    as [(d & s & prc & n & Hd & _ & _ & _ & ->)|(Hnd & msg & sub & Hm & ->)].
  - assert (He : forall st pct, report_dict st pct prc now !! "error_message" =
                   Some (match error_msg st with Some m => VStr m | None => VNone end))
      by reflexivity.
    rewrite He. simpl. unfold advisory. split.
    + intros Hn. exists d. destruct (d !! "dp") as [dp|] eqn:Hdp; simpl in Hn.
      * exists dp. repeat split; auto. intros ->. discriminate Hn.
      * discriminate Hn.
    + intros (d' & dp & Hd' & Hdp & Hne). rewrite Hd in Hd'. injection Hd' as <-.
      rewrite Hdp. simpl. destruct dp; try reflexivity. congruence.
  - split; [discriminate|]. intros (d & dp & Hd & _). exfalso. exact (Hnd d Hd).
Qed.

Lemma error_message_absent_witness :
  timeout_example !! "error_message" = Some VNone <->
  exists d dp,
    times_out (quote_url "key") = FetchJson (VDict d) /\ d !! "dp" = Some dp /\ dp <> VNone.
Proof.
  apply (error_message_absent "key" times_out "2025-04-07 16:00:00 " timeout_example).
  reflexivity.
Defined.

(** X13. The API key reaches the report only through what the network
    answers: two calls whose requests get the same answer return the same
    report (or raise the same exception), whatever the two keys. *)
Theorem key_only_through_answer (k1 k2 : string) (sg1 sg2 : string -> fetch_outcome)
    (now : string) :
  sg1 (quote_url k1) = sg2 (quote_url k2) ->
  get_market_data k1 sg1 now = get_market_data k2 sg2 now.
Proof.
  intros H. rewrite !get_market_data_eq.
  assert (Ht : after_try k1 sg1 = after_try k2 sg2).
  { unfold after_try, try_except.
    assert (Hb : try_body k1 sg1 init_locals = try_body k2 sg2 init_locals)
      by (unfold try_body, bind, lift; rewrite H; reflexivity).
    rewrite Hb. reflexivity. }
  rewrite Ht. reflexivity.
Qed.

Lemma key_only_through_answer_witness :
  get_market_data "key" times_out "2025-04-07 16:00:00 " =
  get_market_data "another key" times_out "2025-04-07 16:00:00 ".
Proof.
  apply (key_only_through_answer "key" "another key" times_out times_out).
  reflexivity.
Defined.

(** X14. The message of an "error" report: fixed for a timeout, and for
    every other exception the text of the exception itself after a prefix,
    so whatever that text names (the requested URL, say) is in the
    report. *)
Theorem error_message_text (k : string) (sg : string -> fetch_outcome)
    (now : string) (e : exn) :
  sg (quote_url k) = FetchRaises e ->
  exists r,
    get_market_data k sg now = Ok r /\
    r !! "error_message" =
      Some (VStr match e with
                 | Timeout _ => "API request timed out."
                 | HTTPError m (Some details) =>
                     "API HTTP error: " +:+ m +:+ " - " +:+ details
                 | HTTPError m None => "API HTTP error occurred: " +:+ m
                 | RequestException m => "API Request error occurred: " +:+ m
                 | _ => "An unexpected error occurred: " +:+ exn_str e
                 end).
Proof.
  intros H.
  assert (Hst : exists sub,
            after_try k sg =
              Locals (VInt 0) VNone
                (Some match e with
                      | Timeout _ => "API request timed out."
                      | HTTPError m (Some details) =>
                          "API HTTP error: " +:+ m +:+ " - " +:+ details
                      | HTTPError m None => "API HTTP error occurred: " +:+ m
                      | RequestException m => "API Request error occurred: " +:+ m
                      | _ => "An unexpected error occurred: " +:+ exn_str e
                      end)
                "ERROR" "error" sub "?").
  { unfold after_try, try_except. rewrite (try_body_fetch_raises _ _ _ H).
    destruct e as [m|m [dt|]|m|m|m|m|m|m]; eexists; reflexivity. }
  destruct Hst as [sub Hst].
  eexists. rewrite get_market_data_eq, Hst. simpl. split; reflexivity.
Qed.

Lemma error_message_text_witness :
  exists r,
    get_market_data "key" forbidden "2025-04-07 16:00:00 " = Ok r /\
    r !! "error_message" =
      Some (VStr ("API HTTP error occurred: 403 Client Error: Forbidden for url: "
                  +:+ "https://finnhub.io/api/v1/quote?symbol=SPY&token=key")).
Proof.
  apply (error_message_text "key" forbidden "2025-04-07 16:00:00 "
           (HTTPError ("403 Client Error: Forbidden for url: " +:+ quote_url "key") None)).
  reflexivity.
Defined.

(** ** Rendering and the files *)

(** X15. [generate_html] touches no file but the output page. *)
Theorem generate_html_frame (h : host) (data : gmap string pyval)
    (files : gmap string string) (p : string) :
  p <> path_join (SCRIPT_DIR h) OUTPUT_HTML_FILE ->
  snd (generate_html h data files) !! p = files !! p.
Proof.
  intros Hp. rewrite generate_html_run. cbv zeta.
  repeat match goal with |- context [match ?x with _ => _ end] => destruct x end;
    simpl; try reflexivity; apply lookup_insert_ne; congruence.
Qed.

Lemma generate_html_frame_witness :
  snd (generate_html with_template timeout_example old_page) !! "/srv/site/template.html"
  = old_page !! "/srv/site/template.html".
Proof.
  apply (generate_html_frame with_template timeout_example old_page).
  discriminate.
Defined.

(** X16. What a failure leaves on disk.  When the template file is not on
    disk, cannot be read or parsed, does not render, or the output file
    cannot be opened, [generate_html] returns [False] and the disk is as it
    was: the previous page stays.  When the file was opened and the write
    fails, it returns [False] and the previous page is gone: the file holds
    the part of the new page that was written before the failure. *)
Theorem failed_render_and_the_page (h : host) (data : gmap string pyval)
    (files : gmap string string) :
  (files !! template_path h = None -> generate_html h data files = (Ok false, files)) /\
  ((exists e, get_template h files (TEMPLATE_DIR h) HTML_TEMPLATE_FILE = Raise e) \/
   (exists tpl e, get_template h files (TEMPLATE_DIR h) HTML_TEMPLATE_FILE = Ok tpl /\
                  tpl data = Raise e) \/
   (exists e, open_raises h (output_path h) = Some e) ->
   generate_html h data files = (Ok false, files)) /\
  (forall tpl text e n,
     get_template h files (TEMPLATE_DIR h) HTML_TEMPLATE_FILE = Ok tpl ->
     tpl data = Ok text ->
     open_raises h (output_path h) = None ->
     write_raises h (output_path h) = Some (e, n) ->
     generate_html h data files =
       (Ok false, <[output_path h := substring 0 n text]> files)).
Proof.
  assert (Hfail :
    (exists e, get_template h files (TEMPLATE_DIR h) HTML_TEMPLATE_FILE = Raise e) \/
    (exists tpl e, get_template h files (TEMPLATE_DIR h) HTML_TEMPLATE_FILE = Ok tpl /\
                   tpl data = Raise e) \/
    (exists e, open_raises h (output_path h) = Some e) ->
    generate_html h data files = (Ok false, files)).
  { intros Hc. rewrite generate_html_run. cbv zeta. fold (output_path h).
    destruct (get_template h files (TEMPLATE_DIR h) HTML_TEMPLATE_FILE) as [tpl|e0] eqn:Ht;
      [|reflexivity].
    destruct (tpl data) as [text|e0] eqn:Hr; [|reflexivity].
    destruct (open_raises h (output_path h)) as [e0|] eqn:Ho; [reflexivity|].
    exfalso. destruct Hc as [[e He]|[(tpl' & e & He & Hr')|[e He]]]; congruence. }
  split; [|split; [exact Hfail|]].
  - intros Hnone. apply Hfail. left. unfold get_template.
    fold (template_path h). rewrite Hnone. eauto.
  - intros tpl text e n Ht Hr Ho Hw. rewrite generate_html_run. cbv zeta.
    fold (output_path h). rewrite Ht, Hr, Ho, Hw. reflexivity.
Qed.

Lemma failed_render_and_the_page_witness :
  generate_html with_template timeout_example page_without_template =
    (Ok false, page_without_template) /\
  generate_html disk_full timeout_example old_page =
    (Ok false, <["/srv/site/index.html" := "<h1 class"]> old_page).
Proof.
  split.
  - apply (proj1 (failed_render_and_the_page with_template timeout_example
                    page_without_template)).
    reflexivity.
  - apply (proj2 (proj2 (failed_render_and_the_page disk_full timeout_example old_page))
             class_and_price "<h1 class=error>N/A</h1>"
             (OtherException "[Errno 28] No space left on device") 9%nat);
      reflexivity.
Defined.



(** ** The process *)

(** X18. The exit status is 0 or 1, and it is 0 exactly when the
    credential is a non-empty string and [get_market_data] returns. *)
Theorem exit_code_zero_iff (w : world) :
  (exit_code (main w) = 0 <->
   exists k r,
     environ_FINANCIAL_API_KEY w = Some k /\ k <> "" /\
     get_market_data k (session_get w) (now w) = Ok r) /\
  (exit_code (main w) = 0 \/ exit_code (main w) = 1).
Proof.
  destruct (falsy (environ_FINANCIAL_API_KEY w)) eqn:Hf.
  - rewrite (main_falsy w Hf). simpl. split; [|auto].
    split; [discriminate|]. intros (k & r & Hk & Hne & _).
    apply falsy_spec in Hf. destruct Hf; congruence.
  - destruct (environ_FINANCIAL_API_KEY w) as [k|] eqn:Hk; [|discriminate Hf].
    assert (Hne : k <> "") by (intros ->; discriminate Hf).
    rewrite (main_fetches w k Hk Hne).
    destruct (get_market_data k (session_get w) (now w)) as [r|e] eqn:Hr; simpl.
    + split; [|auto]. split; [|reflexivity]. intros _. exists k, r. auto.
    + split; [|auto]. split; [discriminate|].
      intros (k' & r & [= <-] & _ & Hr'). congruence.
Qed.

(** X19. The process changes no file but the output page, and when it
    exits with 1 it changes no file at all: the previous page stays. *)
Theorem process_effects (w : world) :
  (forall p, p <> path_join (SCRIPT_DIR (machine w)) OUTPUT_HTML_FILE ->
             disk_after (main w) !! p = disk w !! p) /\
  (exit_code (main w) = 1 -> disk_after (main w) = disk w).
Proof.
  destruct (falsy (environ_FINANCIAL_API_KEY w)) eqn:Hf.
  - rewrite (main_falsy w Hf). simpl. auto.
  - destruct (environ_FINANCIAL_API_KEY w) as [k|] eqn:Hk; [|discriminate Hf].
    assert (Hne : k <> "") by (intros ->; discriminate Hf).
    rewrite (main_fetches w k Hk Hne).
    destruct (get_market_data k (session_get w) (now w)) as [r|e]; simpl.
    + split; [|discriminate].
      intros p Hp. rewrite generate_html_run. cbv zeta.
      repeat match goal with
             | |- context [match ?x with _ => _ end] => destruct x
             end;
        simpl; try reflexivity; apply lookup_insert_ne; congruence.
    + auto.
Qed.

Lemma process_effects_witness :
  disk_after (main bad_quote) = old_page.
Proof.
  apply (process_effects bad_quote).
  apply (uncaught_exception_exits_1 bad_quote "key"
           (ValueError "Unknown format code 'f' for object of type 'str'")).
  - reflexivity.
  - discriminate.
  - apply get_market_data_raises.
    exists {[ "dp" := VStr "abc"; "c" := VFloat double_450_1234 ]}.
    split; [reflexivity|]. left. reflexivity.
Defined.

(** X20. A run that gets a report, finds the template, renders it and can
    write: the process exits with 0 after one request and the output page
    holds the rendering of the report, an "error" report included. *)
Theorem run_writes_the_page (w : world) (k : string) (r : gmap string pyval)
    (tpl : template) (text : string) :
  let path := path_join (SCRIPT_DIR (machine w)) OUTPUT_HTML_FILE in
  environ_FINANCIAL_API_KEY w = Some k -> k <> "" ->
  get_market_data k (session_get w) (now w) = Ok r ->
  get_template (machine w) (disk w) (TEMPLATE_DIR (machine w)) HTML_TEMPLATE_FILE
    = Ok tpl ->
  tpl r = Ok text ->
  open_raises (machine w) path = None ->
  write_raises (machine w) path = None ->
  main w = Outcome 0 [quote_url k] (<[path := text]> (disk w)).
Proof.
  intros path Hk Hne Hr Ht Hx Ho Hw.
  rewrite (main_fetches w k Hk Hne), Hr, generate_html_run. cbv zeta. fold path.
  rewrite Ht, Hx, Ho, Hw. reflexivity.
Qed.

Lemma run_writes_the_page_witness :
  main outage =
    Outcome 0 ["https://finnhub.io/api/v1/quote?symbol=SPY&token=key"]
            (<["/srv/site/index.html" := "<h1 class=error>N/A</h1>"]> old_page).
Proof.
  apply (run_writes_the_page outage "key" timeout_example class_and_price
           "<h1 class=error>N/A</h1>").
  - reflexivity.
  - discriminate.
  - reflexivity.
  - reflexivity.
  - reflexivity.
  - reflexivity.
  - reflexivity.
Defined.

(** ** The embed table, again *)

(** X21. Each class has an embed code of its own: two classes of the set
    with the same code are the same class, and none of them has the default
    code, so the code in a report tells its class. *)
Theorem embed_tells_class (c1 c2 : string) :
  c1 ∈ status_classes -> c2 ∈ status_classes ->
  (get_visual_humor_embed c1 = get_visual_humor_embed c2 -> c1 = c2) /\
  get_visual_humor_embed c1 <> default_embed.
Proof.
  unfold status_classes. rewrite !elem_of_cons, !elem_of_nil.
  intros [->|[->|[->|[->|[->|[->|[->|[]]]]]]]] [->|[->|[->|[->|[->|[->|[->|[]]]]]]]];
    (split; [intros Hsame; first [ reflexivity | vm_compute in Hsame; discriminate Hsame ]
            | vm_compute; discriminate ]).
Qed.

Lemma embed_tells_class_witness :
  (get_visual_humor_embed "yes" = get_visual_humor_embed "error" -> "yes" = "error") /\
  get_visual_humor_embed "yes" <> default_embed.
Proof.
  apply (embed_tells_class "yes" "error"); unfold status_classes; set_solver.
Defined.
